(** * Covalence dashboard: the deterministic calculation layer of [app.py]

    The script reads a sector reference row and a handful of sidebar inputs,
    then runs a straight-line sequence of formulas ("CORE CALCULATIONS",
    lines 133-191) whose results the two persona views display.  The
    exporter view additionally computes a payback period (line 470).

    Embedding.
    - Python [float] values are modelled as exact rationals [Q]; the integer
      widgets ([reduction_pct], [slb_rate_discount_bps], [deal_tenor_years])
      are [Z] and enter the arithmetic through [inject_Z].  Rounding,
      overflow to infinity and NaN are therefore outside this model; the
      module [Binary64] runs the same lines on IEEE 754 binary64 numbers,
      where they can be observed.
    - [/] raises [ZeroDivisionError] on a zero divisor; the script is run in
      a small exception monad so that "the guard fires instead of raising"
      is a statement about the value returned.
    - The builtins [max] and [min] are modelled as CPython evaluates them
      (keep the first argument unless the second compares strictly
      better). *)

From Stdlib Require Import Floats.
From Stdlib Require Import QArith Qminmax ZArith String Lqa Lia Bool.

Local Open Scope Q_scope.

(** ** Python primitives *)

Inductive PyError : Set := ZeroDivisionError.

Inductive Exc (A : Type) : Type :=
| Return (a : A)
| Raise (e : PyError).

Arguments Return {A} a.
Arguments Raise {A} e.

Definition bind {A B : Type} (m : Exc A) (k : A -> Exc B) : Exc B :=
  match m with
  | Return a => k a
  | Raise e => Raise e
  end.

Notation "x <- m ;; k" := (bind m (fun x => k))
  (at level 61, m at next level, right associativity).

(** [a > b], [a < b] and [a <= b] on numbers. *)
Definition py_le (a b : Q) : bool := Qle_bool a b.
Definition py_gt (a b : Q) : bool := negb (Qle_bool a b).
Definition py_lt (a b : Q) : bool := negb (Qle_bool b a).

(** [max(a, b)]: the second argument replaces the first only when it is
    strictly greater. *)
Definition py_max (a b : Q) : Q := if py_gt b a then b else a.

(** [min(a, b)]: the second argument replaces the first only when it is
    strictly smaller. *)
Definition py_min (a b : Q) : Q := if py_lt b a then b else a.

(** [a / b]: true division, raising on a zero divisor. *)
Definition py_truediv (a b : Q) : Exc Q :=
  if Qeq_bool b 0 then Raise ZeroDivisionError else Return (a / b).

(** ** Data model *)

(** One row of [sector_defaults.csv], indexed by sector (lines 24, 47). *)
Record SectorRow : Set := {
  india_emission_intensity_tCO2_per_tonne : Q;
  eu_benchmark_intensity_tCO2_per_tonne : Q;
  ets_price_eur_per_tCO2 : Q;
  typical_export_price_per_tonne_eur : Q;
  typical_pre_cbam_margin_pct : Q
}.

(** The sidebar inputs (lines 42-130) together with the selected row. *)
Record Inputs : Set := {
  row : SectorRow;
  user_intensity : Q;
  export_volume_tonnes : Q;
  selling_price : Q;
  reduction_pct : Z;
  capex_per_pct_reduction_million_eur : Q;
  slb_rate_discount_bps : Z;
  deal_tenor_years : Z;
  EUR_to_INR_rate : Q
}.

(** Lines 88, 140, 141. *)
Definition pre_margin_pct (i : Inputs) : Q := typical_pre_cbam_margin_pct (row i).
Definition eu_benchmark (i : Inputs) : Q := eu_benchmark_intensity_tCO2_per_tonne (row i).
Definition ets_price (i : Inputs) : Q := ets_price_eur_per_tCO2 (row i).

(** Lines 136-137. *)
Definition LAKH : Q := 100000.
Definition CRORE : Q := 10000000.

(** The three competitiveness tiers set by the [if]/[elif]/[else] at lines
    154-162. *)
Inductive Tier : Set := GREEN | YELLOW | RED.

Definition competitiveness_label (t : Tier) : string :=
  match t with
  | GREEN => "GREEN – Broadly Aligned"
  | YELLOW => "YELLOW – Cost Pressure"
  | RED => "RED – High Substitution Risk"
  end.

Definition competitiveness_class (t : Tier) : string :=
  match t with
  | GREEN => "status-green"
  | YELLOW => "status-yellow"
  | RED => "status-red"
  end.

(** Lines 154-162 as a function of [cbam_hit_pct_of_price]. *)
Definition competitiveness_tier (cbam_hit_pct_of_price : Q) : Tier :=
  if py_le cbam_hit_pct_of_price 5 then GREEN
  else if py_le cbam_hit_pct_of_price 15 then YELLOW
  else RED.

(** Every module-level variable assigned by lines 144-191. *)
Record Core : Set := {
  excess_intensity : Q;
  cbam_cost_per_tonne_calc : Q;
  total_cbam_bill : Q;
  total_cbam_bill_inr : Q;
  cbam_hit_pct_of_price : Q;
  post_margin_pct : Q;
  margin_delta : Q;
  competitiveness : Tier;
  reduced_intensity : Q;
  excess_after : Q;
  cbam_after_per_tonne : Q;
  total_cbam_after : Q;
  cbam_savings_total : Q;
  cbam_savings_total_inr : Q;
  total_transition_capex_million_eur : Q;
  total_transition_capex_eur : Q;
  total_transition_capex_inr : Q;
  annual_finance_relief_estimate_eur : Q;
  annual_finance_relief_estimate_inr : Q;
  score_raw : Q;
  readiness_score : Q;
  annual_debt_service_eur : Q;
  annual_debt_service_inr : Q;
  annual_cash_flow_gain_eur : Q;
  annual_cash_flow_gain_inr : Q;
  coverage_ratio : Q
}.

(** ** The core calculations, lines 144-191, statement by statement *)

Definition core_calculations (i : Inputs) : Exc Core :=
  (* CBAM cost driver *)
  let excess_intensity' := py_max (user_intensity i - eu_benchmark i) 0 in
  let cbam_cost_per_tonne_calc' := excess_intensity' * ets_price i in
  let total_cbam_bill' := cbam_cost_per_tonne_calc' * export_volume_tonnes i in
  let total_cbam_bill_inr' := total_cbam_bill' * EUR_to_INR_rate i in
  (* Margin hit *)
  cbam_hit_pct_of_price' <-
    (if py_gt (selling_price i) 0
     then q <- py_truediv cbam_cost_per_tonne_calc' (selling_price i) ;;
          Return (q * 100)
     else Return 0) ;;
  let post_margin_pct' := py_max (pre_margin_pct i - cbam_hit_pct_of_price') 0 in
  let margin_delta' := post_margin_pct' - pre_margin_pct i in
  let competitiveness' := competitiveness_tier cbam_hit_pct_of_price' in
  (* After decarbonisation scenario *)
  pct <- py_truediv (inject_Z (reduction_pct i)) 100 ;;
  let reduced_intensity' := user_intensity i * (1 - pct) in
  let excess_after' := py_max (reduced_intensity' - eu_benchmark i) 0 in
  let cbam_after_per_tonne' := excess_after' * ets_price i in
  let total_cbam_after' := cbam_after_per_tonne' * export_volume_tonnes i in
  let cbam_savings_total' := py_max (total_cbam_bill' - total_cbam_after') 0 in
  let cbam_savings_total_inr' := cbam_savings_total' * EUR_to_INR_rate i in
  (* Finance sizing *)
  let total_transition_capex_million_eur' :=
    capex_per_pct_reduction_million_eur i * inject_Z (reduction_pct i) in
  let total_transition_capex_eur' := total_transition_capex_million_eur' * 1000000 in
  let total_transition_capex_inr' := total_transition_capex_eur' * EUR_to_INR_rate i in
  frac <- py_truediv (inject_Z (slb_rate_discount_bps i)) 10000 ;;
  let annual_finance_relief_estimate_eur' := frac * total_transition_capex_eur' in
  let annual_finance_relief_estimate_inr' :=
    annual_finance_relief_estimate_eur' * EUR_to_INR_rate i in
  (* Readiness score *)
  let score_raw' :=
    (cbam_hit_pct_of_price' * 2) + (pre_margin_pct i - post_margin_pct') * 5 in
  let readiness_score' := py_max (py_min (100 - score_raw') 100) 0 in
  (* Banker-specific calculations *)
  annual_debt_service_eur' <-
    (if (deal_tenor_years i >? 0)%Z
     then py_truediv total_transition_capex_eur' (inject_Z (deal_tenor_years i))
     else Return 0) ;;
  let annual_debt_service_inr' := annual_debt_service_eur' * EUR_to_INR_rate i in
  let annual_cash_flow_gain_eur' :=
    cbam_savings_total' + annual_finance_relief_estimate_eur' in
  let annual_cash_flow_gain_inr' := annual_cash_flow_gain_eur' * EUR_to_INR_rate i in
  coverage_ratio' <-
    (if py_gt annual_debt_service_eur' 0
     then py_truediv annual_cash_flow_gain_eur' annual_debt_service_eur'
     else Return 999) ;;
  Return {|
    excess_intensity := excess_intensity';
    cbam_cost_per_tonne_calc := cbam_cost_per_tonne_calc';
    total_cbam_bill := total_cbam_bill';
    total_cbam_bill_inr := total_cbam_bill_inr';
    cbam_hit_pct_of_price := cbam_hit_pct_of_price';
    post_margin_pct := post_margin_pct';
    margin_delta := margin_delta';
    competitiveness := competitiveness';
    reduced_intensity := reduced_intensity';
    excess_after := excess_after';
    cbam_after_per_tonne := cbam_after_per_tonne';
    total_cbam_after := total_cbam_after';
    cbam_savings_total := cbam_savings_total';
    cbam_savings_total_inr := cbam_savings_total_inr';
    total_transition_capex_million_eur := total_transition_capex_million_eur';
    total_transition_capex_eur := total_transition_capex_eur';
    total_transition_capex_inr := total_transition_capex_inr';
    annual_finance_relief_estimate_eur := annual_finance_relief_estimate_eur';
    annual_finance_relief_estimate_inr := annual_finance_relief_estimate_inr';
    score_raw := score_raw';
    readiness_score := readiness_score';
    annual_debt_service_eur := annual_debt_service_eur';
    annual_debt_service_inr := annual_debt_service_inr';
    annual_cash_flow_gain_eur := annual_cash_flow_gain_eur';
    annual_cash_flow_gain_inr := annual_cash_flow_gain_inr';
    coverage_ratio := coverage_ratio'
  |}.

(** ** The persona views (lines 372-681), as far as they compute *)

Inductive Persona : Set := Exporter_Manufacturer | Banker_Financial_Institution.

(** What each branch of [if persona == ...] computes beyond formatting:
    the readiness helper text in both, [payback_period] in the exporter
    view (line 470), [coverage_class] in the banker view (line 557). *)
Inductive View : Set :=
| ExporterView (readiness_subtext : string) (payback_period : Q)
| BankerView (readiness_subtext : string) (coverage_class : string).

Definition render (persona : Persona) (c : Core) : Exc View :=
  match persona with
  | Exporter_Manufacturer =>
      let readiness_subtext :=
        if Qeq_bool (readiness_score c) 0
        then "<span class='status-red'>High Risk: CBAM cost exceeds margin</span>"%string
        else "Resilience to EU buyer pressure"%string in
      payback_period <-
        (if py_gt (annual_cash_flow_gain_eur c) 0
         then py_truediv (total_transition_capex_eur c) (annual_cash_flow_gain_eur c)
         else Return 0) ;;
      Return (ExporterView readiness_subtext payback_period)
  | Banker_Financial_Institution =>
      let readiness_subtext :=
        if Qeq_bool (readiness_score c) 0
        then "<span class='status-red'>High Risk: CBAM cost exceeds margin</span>"%string
        else "Client's resilience to CBAM shock"%string in
      let coverage_class :=
        if py_le 1 (coverage_ratio c) then "kpi-delta-pos"%string
        else "kpi-delta-neg"%string in
      Return (BankerView readiness_subtext coverage_class)
  end.

(** One run of the script. *)
Definition app (persona : Persona) (i : Inputs) : Exc (Core * View) :=
  c <- core_calculations i ;;
  v <- render persona c ;;
  Return (c, v).

(** ** Concrete inputs *)

(** A steel row with the benchmark and ETS price of the specification's
    worked scenario; [sector_defaults.csv] itself is data, read at start-up. *)
Definition steel_row : SectorRow := {|
  india_emission_intensity_tCO2_per_tonne := 2;
  eu_benchmark_intensity_tCO2_per_tonne := 1;
  ets_price_eur_per_tCO2 := 80;
  typical_export_price_per_tonne_eur := 1000;
  typical_pre_cbam_margin_pct := 12
|}.

(** Plant intensity 2.0, export volume 10,000, selling price 1000, and the
    steel defaults of the remaining widgets. *)
Definition steel_scenario : Inputs := {|
  row := steel_row;
  user_intensity := 2;
  export_volume_tonnes := 10000;
  selling_price := 1000;
  reduction_pct := 15;
  capex_per_pct_reduction_million_eur := 8;
  slb_rate_discount_bps := 75;
  deal_tenor_years := 7;
  EUR_to_INR_rate := 88.5
|}.

(** The same scenario with a free sample (selling price zero). *)
Definition free_sample_scenario : Inputs := {|
  row := steel_row;
  user_intensity := 2;
  export_volume_tonnes := 10000;
  selling_price := 0;
  reduction_pct := 15;
  capex_per_pct_reduction_million_eur := 8;
  slb_rate_discount_bps := 75;
  deal_tenor_years := 7;
  EUR_to_INR_rate := 88.5
|}.

(** The same scenario with the reduction slider at zero: no capex, no
    debt service, no savings. *)
Definition no_reduction_scenario : Inputs := {|
  row := steel_row;
  user_intensity := 2;
  export_volume_tonnes := 10000;
  selling_price := 1000;
  reduction_pct := 0;
  capex_per_pct_reduction_million_eur := 8;
  slb_rate_discount_bps := 75;
  deal_tenor_years := 7;
  EUR_to_INR_rate := 88.5
|}.

(** A plant whose CBAM hit is [h] percent of the price: benchmark 0, ETS
    price 1 and selling price 100, so that the hit is [h / 100 * 100]. *)
Definition hit_scenario (h : Q) : Inputs := {|
  row := {|
    india_emission_intensity_tCO2_per_tonne := 2;
    eu_benchmark_intensity_tCO2_per_tonne := 0;
    ets_price_eur_per_tCO2 := 1;
    typical_export_price_per_tonne_eur := 100;
    typical_pre_cbam_margin_pct := 12
  |};
  user_intensity := h;
  export_volume_tonnes := 39000;
  selling_price := 100;
  reduction_pct := 15;
  capex_per_pct_reduction_million_eur := 8;
  slb_rate_discount_bps := 75;
  deal_tenor_years := 7;
  EUR_to_INR_rate := 88.5
|}.

(** The tier a run ends with, when it ends. *)
Definition run_tier (i : Inputs) : option Tier :=
  match core_calculations i with
  | Return c => Some (competitiveness c)
  | Raise _ => None
  end.

(** ** Vocabulary of the properties *)


Definition with_EUR_to_INR_rate (fx : Q) (i : Inputs) : Inputs := {|
  row := row i;
  user_intensity := user_intensity i;
  export_volume_tonnes := export_volume_tonnes i;
  selling_price := selling_price i;
  reduction_pct := reduction_pct i;
  capex_per_pct_reduction_million_eur := capex_per_pct_reduction_million_eur i;
  slb_rate_discount_bps := slb_rate_discount_bps i;
  deal_tenor_years := deal_tenor_years i;
  EUR_to_INR_rate := fx
|}.

(** Every number the calculation reads is non-negative. *)
Record nonneg_inputs (i : Inputs) : Prop := {
  nonneg_india_intensity : 0 <= india_emission_intensity_tCO2_per_tonne (row i);
  nonneg_eu_benchmark : 0 <= eu_benchmark i;
  nonneg_ets_price : 0 <= ets_price i;
  nonneg_export_price : 0 <= typical_export_price_per_tonne_eur (row i);
  nonneg_pre_margin : 0 <= pre_margin_pct i;
  nonneg_user_intensity : 0 <= user_intensity i;
  nonneg_export_volume : 0 <= export_volume_tonnes i;
  nonneg_selling_price : 0 <= selling_price i;
  nonneg_reduction_pct : (0 <= reduction_pct i)%Z;
  nonneg_capex : 0 <= capex_per_pct_reduction_million_eur i;
  nonneg_bps : (0 <= slb_rate_discount_bps i)%Z;
  nonneg_tenor : (0 <= deal_tenor_years i)%Z;
  nonneg_fx : 0 <= EUR_to_INR_rate i
}.

(** [clamp x lo hi] as the specification uses the word: [x] brought into
    the interval from [lo] to [hi]. *)
Definition clamp (x lo hi : Q) : Q :=
  if Qlt_le_dec x lo then lo else if Qlt_le_dec hi x then hi else x.

(** What the straight-line code establishes between its variables once it
    has run to the end: one equation per assignment of lines 144-191, with
    every division performed. *)
Record core_post (i : Inputs) (c : Core) : Prop := {
  post_excess_intensity :
    excess_intensity c = py_max (user_intensity i - eu_benchmark i) 0;
  post_cbam_cost_per_tonne_calc :
    cbam_cost_per_tonne_calc c = excess_intensity c * ets_price i;
  post_total_cbam_bill :
    total_cbam_bill c = cbam_cost_per_tonne_calc c * export_volume_tonnes i;
  post_total_cbam_bill_inr :
    total_cbam_bill_inr c = total_cbam_bill c * EUR_to_INR_rate i;
  post_cbam_hit_pct_of_price :
    cbam_hit_pct_of_price c =
      if py_gt (selling_price i) 0
      then cbam_cost_per_tonne_calc c / selling_price i * 100
      else 0;
  post_post_margin_pct :
    post_margin_pct c = py_max (pre_margin_pct i - cbam_hit_pct_of_price c) 0;
  post_margin_delta :
    margin_delta c = post_margin_pct c - pre_margin_pct i;
  post_competitiveness :
    competitiveness c = competitiveness_tier (cbam_hit_pct_of_price c);
  post_reduced_intensity :
    reduced_intensity c =
      user_intensity i * (1 - inject_Z (reduction_pct i) / 100);
  post_excess_after :
    excess_after c = py_max (reduced_intensity c - eu_benchmark i) 0;
  post_cbam_after_per_tonne :
    cbam_after_per_tonne c = excess_after c * ets_price i;
  post_total_cbam_after :
    total_cbam_after c = cbam_after_per_tonne c * export_volume_tonnes i;
  post_cbam_savings_total :
    cbam_savings_total c = py_max (total_cbam_bill c - total_cbam_after c) 0;
  post_cbam_savings_total_inr :
    cbam_savings_total_inr c = cbam_savings_total c * EUR_to_INR_rate i;
  post_total_transition_capex_million_eur :
    total_transition_capex_million_eur c =
      capex_per_pct_reduction_million_eur i * inject_Z (reduction_pct i);
  post_total_transition_capex_eur :
    total_transition_capex_eur c = total_transition_capex_million_eur c * 1000000;
  post_total_transition_capex_inr :
    total_transition_capex_inr c = total_transition_capex_eur c * EUR_to_INR_rate i;
  post_annual_finance_relief_estimate_eur :
    annual_finance_relief_estimate_eur c =
      inject_Z (slb_rate_discount_bps i) / 10000 * total_transition_capex_eur c;
  post_annual_finance_relief_estimate_inr :
    annual_finance_relief_estimate_inr c =
      annual_finance_relief_estimate_eur c * EUR_to_INR_rate i;
  post_score_raw :
    score_raw c =
      cbam_hit_pct_of_price c * 2 + (pre_margin_pct i - post_margin_pct c) * 5;
  post_readiness_score :
    readiness_score c = py_max (py_min (100 - score_raw c) 100) 0;
  post_annual_debt_service_eur :
    annual_debt_service_eur c =
      if (deal_tenor_years i >? 0)%Z
      then total_transition_capex_eur c / inject_Z (deal_tenor_years i)
      else 0;
  post_annual_debt_service_inr :
    annual_debt_service_inr c = annual_debt_service_eur c * EUR_to_INR_rate i;
  post_annual_cash_flow_gain_eur :
    annual_cash_flow_gain_eur c =
      cbam_savings_total c + annual_finance_relief_estimate_eur c;
  post_annual_cash_flow_gain_inr :
    annual_cash_flow_gain_inr c = annual_cash_flow_gain_eur c * EUR_to_INR_rate i;
  post_coverage_ratio :
    coverage_ratio c =
      if py_gt (annual_debt_service_eur c) 0
      then annual_cash_flow_gain_eur c / annual_debt_service_eur c
      else 999
}.

(** ** Start-up: loading the reference table, lines 9-31 *)

(** An exception as the two handlers of [load_defaults] see it: whether it
    is a [FileNotFoundError], and the text [{e}] formats to. *)
Record PyException : Set := {
  is_FileNotFoundError : bool;
  str_e : string
}.

Inductive Outcome (A : Type) : Type :=
| Value (a : A)
| Exception (e : PyException).

Arguments Value {A} a.
Arguments Exception {A} e.

(** The f-string of line 20. *)
Definition error_loading_data (e : PyException) : string :=
  ("Error loading data: " ++ str_e e ++
   ". Please ensure 'sector_defaults.csv' is in the same folder.")%string.

Section LoadDefaults.

(** What pandas offers the script: a frame type, [pd.read_csv(name,
    encoding='latin1')] and [df.set_index("sector")], each of which returns
    a frame or raises. *)
Variable DataFrame : Type.
Variable read_csv : string -> Outcome DataFrame.
Variable set_index : DataFrame -> Outcome DataFrame.

(** [load_defaults()], lines 10-25: the value returned ([None] or the
    indexed frame) or the exception that escapes, and the [st.error]
    messages shown on the way. *)
Definition load_defaults : Outcome (option DataFrame) * list string :=
  let index (df : DataFrame) : Outcome (option DataFrame) * list string :=
    match set_index df with
    | Value indexed => (Value (Some indexed), nil)
    | Exception e => (Exception e, nil)
    end in
  match read_csv "sector_defaults.csv" with
  | Value df => index df
  | Exception e =>
      if is_FileNotFoundError e then
        match read_csv "sectors_defaults.csv" with
        | Value df => index df
        | Exception e' => (Value None, cons (error_loading_data e') nil)
        end
      else (Exception e, nil)
  end.

(** How lines 27-31 leave the script: halted by [st.stop()], ended by an
    exception, or going on with [defaults]. *)
Inductive Startup : Type :=
| Stopped (shown : list string)
| Crashed (e : PyException) (shown : list string)
| Loaded (defaults : DataFrame) (shown : list string).

Definition startup : Startup :=
  match load_defaults with
  | (Value None, shown) => Stopped shown
  | (Value (Some defaults), shown) => Loaded defaults shown
  | (Exception e, shown) => Crashed e shown
  end.

End LoadDefaults.

Arguments Stopped {DataFrame} shown.
Arguments Crashed {DataFrame} e shown.
Arguments Loaded {DataFrame} defaults shown.

(** A folder that holds only the old plural file name, and one that holds
    neither file. *)
Definition no_such_file (name : string) : PyException := {|
  is_FileNotFoundError := true;
  str_e := ("[Errno 2] No such file or directory: '" ++ name ++ "'")%string
|}.

Definition plural_only_folder (name : string) : Outcome (list (string * SectorRow)) :=
  if String.eqb name "sectors_defaults.csv"
  then Value (cons ("steel"%string, steel_row) nil)
  else Exception (no_such_file name).

Definition empty_folder (name : string) : Outcome (list (string * SectorRow)) :=
  Exception (no_such_file name).

(** ** Display classes chosen by the views *)

(** [a >= b] on numbers. *)
Definition py_ge (a b : Q) : bool := Qle_bool b a.

(** Line 407, exporter view. *)
Definition margin_delta_class (c : Core) : string :=
  if py_ge (margin_delta c) 0 then "kpi-delta-pos"%string
  else "kpi-delta-neg"%string.

(** Line 557, banker view. *)
Definition coverage_class (c : Core) : string :=
  if py_ge (coverage_ratio c) 1 then "kpi-delta-pos"%string
  else "kpi-delta-neg"%string.

(** Lines 387-389 and 529-531. *)
Definition high_risk_subtext : string :=
  "<span class='status-red'>High Risk: CBAM cost exceeds margin</span>".

Definition readiness_subtext (persona : Persona) (c : Core) : string :=
  if Qeq_bool (readiness_score c) 0 then high_risk_subtext
  else match persona with
       | Exporter_Manufacturer => "Resilience to EU buyer pressure"%string
       | Banker_Financial_Institution => "Client's resilience to CBAM shock"%string
       end.

(** The helper text a view carries. *)
Definition shown_subtext (v : View) : string :=
  match v with
  | ExporterView text _ => text
  | BankerView text _ => text
  end.

(** ** More vocabulary *)

(** The bounds the sidebar widgets are declared with ([min_value],
    [max_value], lines 67-130). *)
Record widget_ranges (i : Inputs) : Prop := {
  range_user_intensity : 0 <= user_intensity i;
  range_export_volume : 0 <= export_volume_tonnes i;
  range_selling_price : 0 <= selling_price i;
  range_reduction_pct : (0 <= reduction_pct i <= 50)%Z;
  range_capex : 0 <= capex_per_pct_reduction_million_eur i;
  range_bps : (0 <= slb_rate_discount_bps i <= 300)%Z;
  range_tenor : (1 <= deal_tenor_years i <= 20)%Z;
  range_fx_low : 70 <= EUR_to_INR_rate i;
  range_fx_high : EUR_to_INR_rate i <= 110
}.

(** 10^30 and 10^91, written out. *)
Definition moderate_bound : Q := 1000000000000000000000000000000.
Definition bill_bound : Q :=
  10000000000000000000000000000000000000000000000000000000000000000000000000000000000000000000.

(** A number between 0 and 10^30. *)
Definition moderate (x : Q) : Prop := 0 <= x /\ x <= moderate_bound.

(** Inputs inside the widget bounds whose other numbers - the reference
    row, the plant intensity, the export volume, the selling price and the
    capex per percent, for which the widgets declare no maximum - lie
    between 0 and 10^30.  The EUR and INR figures that lines 144-191 form
    by adding and multiplying then stay below 10^93, far from the largest
    binary64 number (about 1.8 * 10^308), so none of them overflows; a ratio
    with a tiny divisor can still be infinite, but not NaN. *)
Record moderate_inputs (i : Inputs) : Prop := {
  moderate_widgets : widget_ranges i;
  moderate_india_intensity :
    moderate (india_emission_intensity_tCO2_per_tonne (row i));
  moderate_eu_benchmark : moderate (eu_benchmark i);
  moderate_ets_price : moderate (ets_price i);
  moderate_export_price : moderate (typical_export_price_per_tonne_eur (row i));
  moderate_pre_margin : moderate (pre_margin_pct i);
  moderate_user_intensity : moderate (user_intensity i);
  moderate_export_volume : moderate (export_volume_tonnes i);
  moderate_selling_price : moderate (selling_price i);
  moderate_capex : moderate (capex_per_pct_reduction_million_eur i)
}.

Definition with_user_intensity (u : Q) (i : Inputs) : Inputs := {|
  row := row i;
  user_intensity := u;
  export_volume_tonnes := export_volume_tonnes i;
  selling_price := selling_price i;
  reduction_pct := reduction_pct i;
  capex_per_pct_reduction_million_eur := capex_per_pct_reduction_million_eur i;
  slb_rate_discount_bps := slb_rate_discount_bps i;
  deal_tenor_years := deal_tenor_years i;
  EUR_to_INR_rate := EUR_to_INR_rate i
|}.

(** Everything but the plant and its price replaced: volume, plan,
    financing terms and exchange rate. *)
Definition with_plan_and_finance
    (volume : Q) (reduction : Z) (capex : Q) (bps tenor : Z) (fx : Q)
    (i : Inputs) : Inputs := {|
  row := row i;
  user_intensity := user_intensity i;
  export_volume_tonnes := volume;
  selling_price := selling_price i;
  reduction_pct := reduction;
  capex_per_pct_reduction_million_eur := capex;
  slb_rate_discount_bps := bps;
  deal_tenor_years := tenor;
  EUR_to_INR_rate := fx
|}.

(** Severity order of the tiers. *)
Definition tier_rank (t : Tier) : Z :=
  match t with GREEN => 0 | YELLOW => 1 | RED => 2 end.

(** An aluminium-like plant from the comment at lines 181-182: a hit of 35
    percent of the price against a 10 percent margin. *)
Definition high_hit_scenario : Inputs := {|
  row := {|
    india_emission_intensity_tCO2_per_tonne := 35;
    eu_benchmark_intensity_tCO2_per_tonne := 0;
    ets_price_eur_per_tCO2 := 1;
    typical_export_price_per_tonne_eur := 100;
    typical_pre_cbam_margin_pct := 10
  |};
  user_intensity := 35;
  export_volume_tonnes := 39000;
  selling_price := 100;
  reduction_pct := 15;
  capex_per_pct_reduction_million_eur := 5;
  slb_rate_discount_bps := 60;
  deal_tenor_years := 7;
  EUR_to_INR_rate := 88.5
|}.

(** A plant already below the benchmark. *)
Definition compliant_scenario : Inputs := with_user_intensity 0.8 steel_scenario.

(** ** The same lines on binary64 numbers *)

(** Python's [float] is IEEE 754 binary64, which is what the kernel's
    primitive [float] is.  The module repeats the primitives, the records
    and lines 144-191 with that number type; every operation is the one of
    the rational model, in the same order. *)
Module Binary64.

Local Open Scope float_scope.

(** An [int] where a [float] is expected.  The conversion is exact below
    2^53, which covers every integer widget. *)
Definition float_of_int (z : Z) : float :=
  SF2Prim (binary_normalize prec emax z 0 false).

(** Comparisons involving NaN are false, as in Python. *)
Definition py_le (a b : float) : bool := PrimFloat.leb a b.
Definition py_gt (a b : float) : bool := PrimFloat.ltb b a.
Definition py_lt (a b : float) : bool := PrimFloat.ltb a b.

Definition py_max (a b : float) : float := if py_gt b a then b else a.
Definition py_min (a b : float) : float := if py_lt b a then b else a.

(** [a / b] raises when [b] is [0.0] or [-0.0]. *)
Definition py_truediv (a b : float) : Exc float :=
  if PrimFloat.eqb b 0 then Raise ZeroDivisionError else Return (a / b).

Record SectorRow : Set := {
  india_emission_intensity_tCO2_per_tonne : float;
  eu_benchmark_intensity_tCO2_per_tonne : float;
  ets_price_eur_per_tCO2 : float;
  typical_export_price_per_tonne_eur : float;
  typical_pre_cbam_margin_pct : float
}.

Record Inputs : Set := {
  row : SectorRow;
  user_intensity : float;
  export_volume_tonnes : float;
  selling_price : float;
  reduction_pct : Z;
  capex_per_pct_reduction_million_eur : float;
  slb_rate_discount_bps : Z;
  deal_tenor_years : Z;
  EUR_to_INR_rate : float
}.

Definition pre_margin_pct (i : Inputs) : float := typical_pre_cbam_margin_pct (row i).
Definition eu_benchmark (i : Inputs) : float := eu_benchmark_intensity_tCO2_per_tonne (row i).
Definition ets_price (i : Inputs) : float := ets_price_eur_per_tCO2 (row i).

Definition competitiveness_tier (cbam_hit_pct_of_price : float) : Tier :=
  if py_le cbam_hit_pct_of_price 5 then GREEN
  else if py_le cbam_hit_pct_of_price 15 then YELLOW
  else RED.

Record Core : Set := {
  excess_intensity : float;
  cbam_cost_per_tonne_calc : float;
  total_cbam_bill : float;
  total_cbam_bill_inr : float;
  cbam_hit_pct_of_price : float;
  post_margin_pct : float;
  margin_delta : float;
  competitiveness : Tier;
  reduced_intensity : float;
  excess_after : float;
  cbam_after_per_tonne : float;
  total_cbam_after : float;
  cbam_savings_total : float;
  cbam_savings_total_inr : float;
  total_transition_capex_million_eur : float;
  total_transition_capex_eur : float;
  total_transition_capex_inr : float;
  annual_finance_relief_estimate_eur : float;
  annual_finance_relief_estimate_inr : float;
  score_raw : float;
  readiness_score : float;
  annual_debt_service_eur : float;
  annual_debt_service_inr : float;
  annual_cash_flow_gain_eur : float;
  annual_cash_flow_gain_inr : float;
  coverage_ratio : float
}.

(** Lines 144-191. *)
Definition core_calculations (i : Inputs) : Exc Core :=
  (* CBAM cost driver *)
  let excess_intensity' := py_max (user_intensity i - eu_benchmark i) 0 in
  let cbam_cost_per_tonne_calc' := excess_intensity' * ets_price i in
  let total_cbam_bill' := cbam_cost_per_tonne_calc' * export_volume_tonnes i in
  let total_cbam_bill_inr' := total_cbam_bill' * EUR_to_INR_rate i in
  (* Margin hit *)
  cbam_hit_pct_of_price' <-
    (if py_gt (selling_price i) 0
     then q <- py_truediv cbam_cost_per_tonne_calc' (selling_price i) ;;
          Return (q * 100)
     else Return 0) ;;
  let post_margin_pct' := py_max (pre_margin_pct i - cbam_hit_pct_of_price') 0 in
  let margin_delta' := post_margin_pct' - pre_margin_pct i in
  let competitiveness' := competitiveness_tier cbam_hit_pct_of_price' in
  (* After decarbonisation scenario *)
  pct <- py_truediv (float_of_int (reduction_pct i)) 100 ;;
  let reduced_intensity' := user_intensity i * (1 - pct) in
  let excess_after' := py_max (reduced_intensity' - eu_benchmark i) 0 in
  let cbam_after_per_tonne' := excess_after' * ets_price i in
  let total_cbam_after' := cbam_after_per_tonne' * export_volume_tonnes i in
  let cbam_savings_total' := py_max (total_cbam_bill' - total_cbam_after') 0 in
  let cbam_savings_total_inr' := cbam_savings_total' * EUR_to_INR_rate i in
  (* Finance sizing *)
  let total_transition_capex_million_eur' :=
    capex_per_pct_reduction_million_eur i * float_of_int (reduction_pct i) in
  let total_transition_capex_eur' := total_transition_capex_million_eur' * 1000000 in
  let total_transition_capex_inr' := total_transition_capex_eur' * EUR_to_INR_rate i in
  frac <- py_truediv (float_of_int (slb_rate_discount_bps i)) 10000 ;;
  let annual_finance_relief_estimate_eur' := frac * total_transition_capex_eur' in
  let annual_finance_relief_estimate_inr' :=
    annual_finance_relief_estimate_eur' * EUR_to_INR_rate i in
  (* Readiness score *)
  let score_raw' :=
    (cbam_hit_pct_of_price' * 2) + (pre_margin_pct i - post_margin_pct') * 5 in
  let readiness_score' := py_max (py_min (100 - score_raw') 100) 0 in
  (* Banker-specific calculations *)
  annual_debt_service_eur' <-
    (if (deal_tenor_years i >? 0)%Z
     then py_truediv total_transition_capex_eur' (float_of_int (deal_tenor_years i))
     else Return 0) ;;
  let annual_debt_service_inr' := annual_debt_service_eur' * EUR_to_INR_rate i in
  let annual_cash_flow_gain_eur' :=
    cbam_savings_total' + annual_finance_relief_estimate_eur' in
  let annual_cash_flow_gain_inr' := annual_cash_flow_gain_eur' * EUR_to_INR_rate i in
  coverage_ratio' <-
    (if py_gt annual_debt_service_eur' 0
     then py_truediv annual_cash_flow_gain_eur' annual_debt_service_eur'
     else Return 999) ;;
  Return {|
    excess_intensity := excess_intensity';
    cbam_cost_per_tonne_calc := cbam_cost_per_tonne_calc';
    total_cbam_bill := total_cbam_bill';
    total_cbam_bill_inr := total_cbam_bill_inr';
    cbam_hit_pct_of_price := cbam_hit_pct_of_price';
    post_margin_pct := post_margin_pct';
    margin_delta := margin_delta';
    competitiveness := competitiveness';
    reduced_intensity := reduced_intensity';
    excess_after := excess_after';
    cbam_after_per_tonne := cbam_after_per_tonne';
    total_cbam_after := total_cbam_after';
    cbam_savings_total := cbam_savings_total';
    cbam_savings_total_inr := cbam_savings_total_inr';
    total_transition_capex_million_eur := total_transition_capex_million_eur';
    total_transition_capex_eur := total_transition_capex_eur';
    total_transition_capex_inr := total_transition_capex_inr';
    annual_finance_relief_estimate_eur := annual_finance_relief_estimate_eur';
    annual_finance_relief_estimate_inr := annual_finance_relief_estimate_inr';
    score_raw := score_raw';
    readiness_score := readiness_score';
    annual_debt_service_eur := annual_debt_service_eur';
    annual_debt_service_inr := annual_debt_service_inr';
    annual_cash_flow_gain_eur := annual_cash_flow_gain_eur';
    annual_cash_flow_gain_inr := annual_cash_flow_gain_inr';
    coverage_ratio := coverage_ratio'
  |}.

(** Every number the calculation reads is a finite float that is not
    negative. *)
Definition finite_nonneg (x : float) : bool :=
  PrimFloat.leb 0 x && negb (PrimFloat.is_infinity x).

Definition nonneg_inputs (i : Inputs) : bool :=
  finite_nonneg (india_emission_intensity_tCO2_per_tonne (row i)) &&
  finite_nonneg (eu_benchmark i) &&
  finite_nonneg (ets_price i) &&
  finite_nonneg (typical_export_price_per_tonne_eur (row i)) &&
  finite_nonneg (pre_margin_pct i) &&
  finite_nonneg (user_intensity i) &&
  finite_nonneg (export_volume_tonnes i) &&
  finite_nonneg (selling_price i) &&
  (0 <=? reduction_pct i)%Z &&
  finite_nonneg (capex_per_pct_reduction_million_eur i) &&
  (0 <=? slb_rate_discount_bps i)%Z &&
  (0 <=? deal_tenor_years i)%Z &&
  finite_nonneg (EUR_to_INR_rate i).

Definition steel_row : SectorRow := {|
  india_emission_intensity_tCO2_per_tonne := 2;
  eu_benchmark_intensity_tCO2_per_tonne := 1;
  ets_price_eur_per_tCO2 := 80;
  typical_export_price_per_tonne_eur := 1000;
  typical_pre_cbam_margin_pct := 12
|}.

(** The steel scenario of the rational model. *)
Definition steel_scenario : Inputs := {|
  row := steel_row;
  user_intensity := 2;
  export_volume_tonnes := 10000;
  selling_price := 1000;
  reduction_pct := 15;
  capex_per_pct_reduction_million_eur := 8;
  slb_rate_discount_bps := 75;
  deal_tenor_years := 7;
  EUR_to_INR_rate := 88.5
|}.

(** The same with 1e308 typed into the intensity widget, which declares a
    minimum but no maximum (lines 67-72); the literal is the binary64 number
    that [1e308] denotes. *)
Definition overflow_scenario : Inputs := {|
  row := steel_row;
  user_intensity := 0x1.1ccf385ebc8ap+1023;
  export_volume_tonnes := 10000;
  selling_price := 1000;
  reduction_pct := 15;
  capex_per_pct_reduction_million_eur := 8;
  slb_rate_discount_bps := 75;
  deal_tenor_years := 7;
  EUR_to_INR_rate := 88.5
|}.

End Binary64.

(** ** Facts about the Python primitives *)

Lemma py_gt_true (a b : Q) : py_gt a b = true <-> b < a.
Proof.
  unfold py_gt. rewrite negb_true_iff.
  destruct (Qle_bool a b) eqn:E.
  - apply Qle_bool_iff in E. split; [discriminate | intro; lra].
  - split; [intros _ | reflexivity].
    apply Qnot_le_lt. intro H. apply Qle_bool_iff in H. congruence.
Qed.

Lemma py_gt_false (a b : Q) : py_gt a b = false <-> a <= b.
Proof.
  unfold py_gt. rewrite negb_false_iff. apply Qle_bool_iff.
Qed.

Lemma py_lt_true (a b : Q) : py_lt a b = true <-> a < b.
Proof. apply (py_gt_true b a). Qed.

Lemma py_lt_false (a b : Q) : py_lt a b = false <-> b <= a.
Proof. apply (py_gt_false b a). Qed.

Lemma py_le_true (a b : Q) : py_le a b = true <-> a <= b.
Proof. apply Qle_bool_iff. Qed.

Lemma py_le_false (a b : Q) : py_le a b = false <-> b < a.
Proof.
  rewrite <- py_gt_true. unfold py_gt, py_le.
  now rewrite negb_true_iff.
Qed.

Lemma py_max_cases (a b : Q) :
  (a < b /\ py_max a b = b) \/ (b <= a /\ py_max a b = a).
Proof.
  unfold py_max. destruct (py_gt b a) eqn:E.
  - left. split; [now apply py_gt_true | reflexivity].
  - right. split; [now apply py_gt_false | reflexivity].
Qed.

Lemma py_min_cases (a b : Q) :
  (b < a /\ py_min a b = b) \/ (a <= b /\ py_min a b = a).
Proof.
  unfold py_min. destruct (py_lt b a) eqn:E.
  - left. split; [now apply py_lt_true | reflexivity].
  - right. split; [now apply py_lt_false | reflexivity].
Qed.

(** The builtin agrees with the mathematical maximum. *)
Lemma py_max_Qmax (a b : Q) : py_max a b == Qmax a b.
Proof.
  destruct (py_max_cases a b) as [[H ->] | [H ->]].
  - symmetry. apply Q.max_r. lra.
  - symmetry. apply Q.max_l. exact H.
Qed.

Lemma py_min_Qmin (a b : Q) : py_min a b == Qmin a b.
Proof.
  destruct (py_min_cases a b) as [[H ->] | [H ->]].
  - symmetry. apply Q.min_r. lra.
  - symmetry. apply Q.min_l. exact H.
Qed.

Lemma py_max_lower (a b : Q) : b <= py_max a b.
Proof. destruct (py_max_cases a b) as [[H ->] | [H ->]]; lra. Qed.

Lemma py_max_mono_l (a a' b : Q) : a <= a' -> py_max a b <= py_max a' b.
Proof.
  intro H.
  destruct (py_max_cases a b) as [[? ->] | [? ->]];
    destruct (py_max_cases a' b) as [[? ->] | [? ->]]; lra.
Qed.

Lemma py_truediv_nonzero (a b : Q) :
  Qeq_bool b 0 = false -> py_truediv a b = Return (a / b).
Proof. intro H. unfold py_truediv. now rewrite H. Qed.

Lemma py_truediv_guarded (a b : Q) :
  py_gt b 0 = true -> py_truediv a b = Return (a / b).
Proof.
  intro H. apply py_truediv_nonzero.
  apply py_gt_true in H.
  destruct (Qeq_bool b 0) eqn:E; [ | reflexivity].
  apply Qeq_bool_eq in E. lra.
Qed.

Lemma py_truediv_tenor (a : Q) (n : Z) :
  (n >? 0)%Z = true -> py_truediv a (inject_Z n) = Return (a / inject_Z n).
Proof.
  intro H. apply py_truediv_guarded. apply py_gt_true.
  apply Z.gtb_lt in H. unfold Qlt, inject_Z. simpl. lia.
Qed.

(** ** The script runs to the end *)

(** No input makes a division raise: the two literal divisors are not
    zero and the three variable ones sit behind their guards. *)
Lemma core_calculations_runs (i : Inputs) :
  exists c, core_calculations i = Return c /\ core_post i c.
Proof.
  unfold core_calculations.
  rewrite (py_truediv_nonzero _ 100 eq_refl).
  rewrite (py_truediv_nonzero _ 10000 eq_refl).
  destruct (py_gt (selling_price i) 0) eqn:Hsp;
    [rewrite (py_truediv_guarded _ _ Hsp) | ];
  (destruct (deal_tenor_years i >? 0)%Z eqn:Hten;
    [rewrite (py_truediv_tenor _ _ Hten) | ]);
  cbn [bind];
  match goal with
  | |- context [if py_gt ?d 0 then py_truediv ?n ?d else _] =>
      destruct (py_gt d 0) eqn:Hds;
        [rewrite (py_truediv_guarded n d Hds) | ]
  end;
  try (exfalso; apply py_gt_true in Hds; lra);
  cbn [bind]; eexists; (split; [reflexivity | ]);
  constructor; cbn; rewrite ?Hsp, ?Hten, ?Hds; reflexivity.
Qed.

(** ** The script on the reference scenarios *)

Example steel_scenario_hit :
  exists c, core_calculations steel_scenario = Return c /\
    cbam_hit_pct_of_price c == 8 /\ competitiveness c = YELLOW /\
    competitiveness_class (competitiveness c) = "status-yellow"%string.
Proof. eexists. split; [vm_compute; reflexivity | repeat split]. Qed.

Example steel_scenario_capex :
  exists c, core_calculations steel_scenario = Return c /\
    total_transition_capex_million_eur c == 120 /\
    total_transition_capex_eur c == 120000000 /\
    annual_debt_service_eur c == 120000000 # 7.
Proof. eexists. split; [vm_compute; reflexivity | repeat split]. Qed.

Example boundary_runs :
  run_tier (hit_scenario 5) = Some GREEN /\
  run_tier (hit_scenario 5.0001) = Some YELLOW /\
  run_tier (hit_scenario 15) = Some YELLOW /\
  run_tier (hit_scenario 15.0001) = Some RED.
Proof. repeat split. Qed.

Example binary64_steel_scenario :
  exists c, Binary64.core_calculations Binary64.steel_scenario = Return c /\
    Binary64.excess_intensity c = 1%float /\
    Binary64.cbam_cost_per_tonne_calc c = 80%float /\
    Binary64.total_cbam_bill c = 800000%float /\
    Binary64.cbam_hit_pct_of_price c = 8%float /\
    Binary64.competitiveness c = YELLOW /\
    Binary64.cbam_savings_total c = 240000%float /\
    Binary64.readiness_score c = 44%float.
Proof. eexists. split; [vm_compute; reflexivity | repeat split]. Qed.

(** In exact arithmetic the floors and the clamp hold whatever the inputs
    are; [Binary64] shows what overflow does to the savings. *)
Lemma core_floors (i : Inputs) :
  exists c, core_calculations i = Return c /\
    0 <= excess_intensity c /\ 0 <= excess_after c /\
    0 <= cbam_savings_total c /\
    0 <= readiness_score c /\ readiness_score c <= 100.
Proof.
  destruct (core_calculations_runs i) as (c & Hrun & P).
  exists c. split; [exact Hrun | ].
  rewrite (post_excess_intensity _ _ P), (post_excess_after _ _ P),
    (post_cbam_savings_total _ _ P), (post_readiness_score _ _ P).
  repeat split; try apply py_max_lower.
  destruct (py_max_cases (py_min (100 - score_raw c) 100) 0) as [[H ->] | [H ->]];
    [lra | ].
  destruct (py_min_cases (100 - score_raw c) 100) as [[H' ->] | [H' ->]]; lra.
Qed.

(** ** Competitiveness classification *)

(** C1.  The classification is a total step function of
    [cbam_hit_pct_of_price]: every run ends with the tier that
    [competitiveness_tier] assigns to the hit; a hit of at most 5 is GREEN,
    a hit above 5 and at most 15 is YELLOW, a hit above 15 is RED; and at the
    four boundary values 5, 5.0001, 15 and 15.0001 the tiers are GREEN,
    YELLOW, YELLOW and RED. *)
Theorem competitiveness_step_function :
  (forall i : Inputs, exists c, core_calculations i = Return c /\
     competitiveness c = competitiveness_tier (cbam_hit_pct_of_price c)) /\
  (forall h : Q,
     (h <= 5 -> competitiveness_tier h = GREEN) /\
     (5 < h /\ h <= 15 -> competitiveness_tier h = YELLOW) /\
     (15 < h -> competitiveness_tier h = RED)) /\
  competitiveness_tier 5 = GREEN /\
  competitiveness_tier 5.0001 = YELLOW /\
  competitiveness_tier 15 = YELLOW /\
  competitiveness_tier 15.0001 = RED.
Proof.
  split; [ | split; [ | repeat split]].
  - intro i. destruct (core_calculations_runs i) as (c & Hrun & P).
    exists c. split; [exact Hrun | exact (post_competitiveness _ _ P)].
  - intro h. unfold competitiveness_tier.
    destruct (py_le h 5) eqn:E5; destruct (py_le h 15) eqn:E15;
      try apply py_le_true in E5; try apply py_le_false in E5;
      try apply py_le_true in E15; try apply py_le_false in E15;
      repeat split; intros; try reflexivity; lra.
Qed.

Lemma competitiveness_step_function_witness :
  competitiveness_tier 8 = YELLOW /\
  competitiveness_tier 3 = GREEN /\
  competitiveness_tier 20 = RED.
Proof.
  destruct competitiveness_step_function as (_ & Hstep & _).
  split; [ | split].
  - apply (proj1 (proj2 (Hstep 8))). split; reflexivity || discriminate.
  - apply (proj1 (Hstep 3)). discriminate.
  - apply (proj2 (proj2 (Hstep 20))). reflexivity.
Defined.

(** ** Exposure *)

(** C2.  Every run computes the excess as the maximum of
    [user_intensity - eu_benchmark] and 0, the per-tonne cost as the excess
    times the ETS price, the bill as the per-tonne cost times the export
    volume and the INR bill as the bill times the exchange rate; with
    intensity 2, benchmark 1, ETS price 80 and volume 10000 the excess is 1,
    the per-tonne cost 80 and the bill 800000. *)
Theorem exposure_stage (i : Inputs) :
  exists c, core_calculations i = Return c /\
    excess_intensity c == Qmax (user_intensity i - eu_benchmark i) 0 /\
    cbam_cost_per_tonne_calc c == excess_intensity c * ets_price i /\
    total_cbam_bill c == cbam_cost_per_tonne_calc c * export_volume_tonnes i /\
    total_cbam_bill_inr c == total_cbam_bill c * EUR_to_INR_rate i /\
    (user_intensity i == 2 -> eu_benchmark i == 1 -> ets_price i == 80 ->
     export_volume_tonnes i == 10000 ->
     excess_intensity c == 1 /\ cbam_cost_per_tonne_calc c == 80 /\
     total_cbam_bill c == 800000).
Proof.
  destruct (core_calculations_runs i) as (c & Hrun & P).
  exists c. split; [exact Hrun | ].
  assert (Hex : excess_intensity c == Qmax (user_intensity i - eu_benchmark i) 0).
  { rewrite (post_excess_intensity _ _ P). apply py_max_Qmax. }
  rewrite (post_total_cbam_bill_inr _ _ P), (post_total_cbam_bill _ _ P),
    (post_cbam_cost_per_tonne_calc _ _ P).
  split; [exact Hex | ].
  do 3 (split; [reflexivity | ]).
  intros Hu Hb He Hv.
  assert (H1 : excess_intensity c == 1)
    by (rewrite Hex, Hu, Hb; reflexivity).
  split; [exact H1 | ].
  split; rewrite H1, He, ?Hv; reflexivity.
Qed.

Lemma exposure_stage_witness :
  exists c, core_calculations steel_scenario = Return c /\
    excess_intensity c == 1 /\ cbam_cost_per_tonne_calc c == 80 /\
    total_cbam_bill c == 800000.
Proof.
  destruct (exposure_stage steel_scenario) as (c & Hrun & _ & _ & _ & _ & H).
  exists c. split; [exact Hrun | ].
  apply H; reflexivity.
Defined.

(** ** Decarbonisation scenario *)




(** ** Readiness score *)

Lemma py_clamp (x : Q) : py_max (py_min x 100) 0 == clamp x 0 100.
Proof.
  unfold clamp.
  destruct (py_max_cases (py_min x 100) 0) as [[H ->] | [H ->]];
    destruct (py_min_cases x 100) as [[H' E] | [H' E]]; rewrite E in H;
    destruct (Qlt_le_dec x 0); destruct (Qlt_le_dec 100 x);
    try rewrite E; lra.
Qed.

(** C4.  Every run ends with a readiness score equal to
    [clamp (100 - (cbam_hit_pct_of_price * 2 + (pre_margin - post_margin) * 5)) 0 100],
    hence between 0 and 100. *)
Theorem readiness_score_clamped (i : Inputs) :
  exists c, core_calculations i = Return c /\
    readiness_score c ==
      clamp (100 - (cbam_hit_pct_of_price c * 2 +
                    (pre_margin_pct i - post_margin_pct c) * 5)) 0 100 /\
    0 <= readiness_score c /\ readiness_score c <= 100.
Proof.
  destruct (core_calculations_runs i) as (c & Hrun & P).
  exists c. split; [exact Hrun | ].
  assert (H : readiness_score c ==
      clamp (100 - (cbam_hit_pct_of_price c * 2 +
                    (pre_margin_pct i - post_margin_pct c) * 5)) 0 100).
  { rewrite (post_readiness_score _ _ P), (post_score_raw _ _ P).
    apply py_clamp. }
  split; [exact H | ].
  rewrite H. unfold clamp.
  destruct (Qlt_le_dec _ 0); [lra | ].
  destruct (Qlt_le_dec 100 _); lra.
Qed.

(** ** Floors *)

(** C5.  The floor on the savings does not hold for every non-negative
    input.  In binary64, with 1e308 in the intensity widget and the rest of
    the steel scenario - every input finite and not negative -
    [total_cbam_bill] and [total_cbam_after] are both infinite, their
    difference is NaN, [max(NaN, 0)] is NaN and [0 <= cbam_savings_total] is
    false.  On that run the two excess quantities are still at least 0 and
    the readiness score is still between 0 and 100. *)
Theorem savings_floor_fails_at_overflow :
  Binary64.nonneg_inputs Binary64.overflow_scenario = true /\
  exists c, Binary64.core_calculations Binary64.overflow_scenario = Return c /\
    Binary64.total_cbam_bill c = PrimFloat.infinity /\
    Binary64.total_cbam_after c = PrimFloat.infinity /\
    PrimFloat.is_nan (Binary64.cbam_savings_total c) = true /\
    PrimFloat.leb 0%float (Binary64.cbam_savings_total c) = false /\
    PrimFloat.leb 0%float (Binary64.excess_intensity c) = true /\
    PrimFloat.leb 0%float (Binary64.excess_after c) = true /\
    PrimFloat.leb 0%float (Binary64.readiness_score c) = true /\
    PrimFloat.leb (Binary64.readiness_score c) 100%float = true.
Proof.
  split; [vm_compute; reflexivity | ].
  eexists. split; [vm_compute; reflexivity | ].
  repeat split.
Qed.

(** ** Guarded divisions *)

(** C6.  Every run ends with [cbam_hit_pct_of_price] equal to
    [cbam_cost_per_tonne_calc / selling_price * 100] when the selling price
    is positive and equal to 0 when the selling price is 0: the division is
    skipped, nothing is raised. *)
Theorem cbam_hit_guarded (i : Inputs) :
  exists c, core_calculations i = Return c /\
    (0 < selling_price i ->
     cbam_hit_pct_of_price c ==
       cbam_cost_per_tonne_calc c / selling_price i * 100) /\
    (selling_price i == 0 -> cbam_hit_pct_of_price c == 0).
Proof.
  destruct (core_calculations_runs i) as (c & Hrun & P).
  exists c. split; [exact Hrun | ].
  rewrite (post_cbam_hit_pct_of_price _ _ P).
  destruct (py_gt (selling_price i) 0) eqn:Hsp.
  - apply py_gt_true in Hsp. split; intro H; [reflexivity | lra].
  - apply py_gt_false in Hsp. split; intro H; [lra | reflexivity].
Qed.

Lemma cbam_hit_guarded_witness :
  (exists c, core_calculations steel_scenario = Return c /\
     cbam_hit_pct_of_price c ==
       cbam_cost_per_tonne_calc c / selling_price steel_scenario * 100) /\
  (exists c, core_calculations free_sample_scenario = Return c /\
     cbam_hit_pct_of_price c == 0).
Proof.
  split.
  - destruct (cbam_hit_guarded steel_scenario) as (c & Hrun & Hpos & _).
    exists c. split; [exact Hrun | ]. apply Hpos. reflexivity.
  - destruct (cbam_hit_guarded free_sample_scenario) as (c & Hrun & _ & Hzero).
    exists c. split; [exact Hrun | ]. apply Hzero. reflexivity.
Defined.

(** C7.  Every run ends with [coverage_ratio] equal to
    [annual_cash_flow_gain_eur / annual_debt_service_eur] when the debt
    service is positive and equal to the sentinel 999 when the debt service
    is 0. *)
Theorem coverage_ratio_guarded (i : Inputs) :
  exists c, core_calculations i = Return c /\
    (0 < annual_debt_service_eur c ->
     coverage_ratio c ==
       annual_cash_flow_gain_eur c / annual_debt_service_eur c) /\
    (annual_debt_service_eur c == 0 -> coverage_ratio c == 999).
Proof.
  destruct (core_calculations_runs i) as (c & Hrun & P).
  exists c. split; [exact Hrun | ].
  rewrite (post_coverage_ratio _ _ P).
  destruct (py_gt (annual_debt_service_eur c) 0) eqn:Hds.
  - apply py_gt_true in Hds. split; intro H; [reflexivity | lra].
  - apply py_gt_false in Hds. split; intro H; [lra | reflexivity].
Qed.

Lemma coverage_ratio_guarded_witness :
  (exists c, core_calculations steel_scenario = Return c /\
     coverage_ratio c ==
       annual_cash_flow_gain_eur c / annual_debt_service_eur c) /\
  (exists c, core_calculations no_reduction_scenario = Return c /\
     coverage_ratio c == 999).
Proof.
  split.
  - destruct (coverage_ratio_guarded steel_scenario) as (c & Hrun & Hpos & _).
    exists c. split; [exact Hrun | ]. apply Hpos.
    vm_compute in Hrun. injection Hrun as Hc. subst c. reflexivity.
  - destruct (coverage_ratio_guarded no_reduction_scenario)
      as (c & Hrun & _ & Hzero).
    exists c. split; [exact Hrun | ]. apply Hzero.
    vm_compute in Hrun. injection Hrun as Hc. subst c. reflexivity.
Defined.

(** ** Margin *)

Lemma cbam_hit_nonneg (i : Inputs) (c : Core) :
  core_post i c -> 0 <= ets_price i -> 0 <= cbam_hit_pct_of_price c.
Proof.
  intros P He.
  rewrite (post_cbam_hit_pct_of_price _ _ P).
  destruct (py_gt (selling_price i) 0) eqn:Hsp; [ | lra].
  apply py_gt_true in Hsp.
  assert (Hcost : 0 <= cbam_cost_per_tonne_calc c).
  { rewrite (post_cbam_cost_per_tonne_calc _ _ P), (post_excess_intensity _ _ P).
    apply Qmult_le_0_compat; [apply py_max_lower | exact He]. }
  apply Qmult_le_0_compat; [ | discriminate].
  apply Qmult_le_0_compat; [exact Hcost | ].
  apply Qlt_le_weak, Qinv_lt_0_compat, Hsp.
Qed.

(** C8.  With non-negative inputs every run ends with the post-CBAM margin
    equal to the maximum of [pre_margin - cbam_hit_pct_of_price] and 0, and
    with [margin_delta = post_margin - pre_margin] at most 0. *)
Theorem margin_never_improves (i : Inputs) :
  nonneg_inputs i ->
  exists c, core_calculations i = Return c /\
    0 <= cbam_hit_pct_of_price c /\
    post_margin_pct c == Qmax (pre_margin_pct i - cbam_hit_pct_of_price c) 0 /\
    margin_delta c == post_margin_pct c - pre_margin_pct i /\
    margin_delta c <= 0.
Proof.
  intro N.
  destruct (core_calculations_runs i) as (c & Hrun & P).
  exists c. split; [exact Hrun | ].
  pose proof (cbam_hit_nonneg i c P (nonneg_ets_price _ N)) as Hhit.
  pose proof (nonneg_pre_margin _ N) as Hpre.
  split; [exact Hhit | ].
  split; [rewrite (post_post_margin_pct _ _ P); apply py_max_Qmax | ].
  rewrite (post_margin_delta _ _ P).
  split; [reflexivity | ].
  rewrite (post_post_margin_pct _ _ P).
  destruct (py_max_cases (pre_margin_pct i - cbam_hit_pct_of_price c) 0)
    as [[H ->] | [H ->]]; lra.
Qed.

Lemma margin_never_improves_witness :
  nonneg_inputs steel_scenario /\
  exists c, core_calculations steel_scenario = Return c /\
    0 <= cbam_hit_pct_of_price c /\
    post_margin_pct c ==
      Qmax (pre_margin_pct steel_scenario - cbam_hit_pct_of_price c) 0 /\
    margin_delta c == post_margin_pct c - pre_margin_pct steel_scenario /\
    margin_delta c <= 0.
Proof.
  assert (N : nonneg_inputs steel_scenario)
    by (constructor; vm_compute; discriminate).
  split; [exact N | exact (margin_never_improves steel_scenario N)].
Defined.

(** ** Payback period *)

Lemma render_exporter_runs (c : Core) :
  exists subtext p,
    render Exporter_Manufacturer c = Return (ExporterView subtext p) /\
    p = if py_gt (annual_cash_flow_gain_eur c) 0
        then total_transition_capex_eur c / annual_cash_flow_gain_eur c
        else 0.
Proof.
  unfold render.
  destruct (py_gt (annual_cash_flow_gain_eur c) 0) eqn:Hg;
    [rewrite (py_truediv_guarded _ _ Hg) | ];
    cbn [bind]; eexists; eexists; split; reflexivity.
Qed.

(** C9.  Every run of the exporter view ends with [payback_period] equal to
    [total_transition_capex_eur / annual_cash_flow_gain_eur] when the gain
    is positive and equal to 0 when the gain is zero or negative. *)
Theorem payback_period_guarded (i : Inputs) :
  exists c subtext payback_period,
    app Exporter_Manufacturer i = Return (c, ExporterView subtext payback_period) /\
    core_calculations i = Return c /\
    (0 < annual_cash_flow_gain_eur c ->
     payback_period ==
       total_transition_capex_eur c / annual_cash_flow_gain_eur c) /\
    (annual_cash_flow_gain_eur c <= 0 -> payback_period == 0).
Proof.
  destruct (core_calculations_runs i) as (c & Hrun & _).
  destruct (render_exporter_runs c) as (subtext & p & Hrender & Hp).
  exists c, subtext, p.
  split; [unfold app; rewrite Hrun; cbn [bind]; rewrite Hrender; reflexivity | ].
  split; [exact Hrun | ].
  rewrite Hp.
  destruct (py_gt (annual_cash_flow_gain_eur c) 0) eqn:Hg.
  - apply py_gt_true in Hg. split; intro H; [reflexivity | lra].
  - apply py_gt_false in Hg. split; intro H; [lra | reflexivity].
Qed.

Lemma payback_period_guarded_witness :
  (exists c subtext payback_period,
     app Exporter_Manufacturer steel_scenario =
       Return (c, ExporterView subtext payback_period) /\
     payback_period ==
       total_transition_capex_eur c / annual_cash_flow_gain_eur c) /\
  (exists c subtext payback_period,
     app Exporter_Manufacturer no_reduction_scenario =
       Return (c, ExporterView subtext payback_period) /\
     payback_period == 0).
Proof.
  split.
  - destruct (payback_period_guarded steel_scenario)
      as (c & subtext & p & Happ & Hrun & Hpos & _).
    exists c, subtext, p. split; [exact Happ | ]. apply Hpos.
    vm_compute in Hrun. injection Hrun as Hc. subst c. reflexivity.
  - destruct (payback_period_guarded no_reduction_scenario)
      as (c & subtext & p & Happ & Hrun & _ & Hzero).
    exists c, subtext, p. split; [exact Happ | ]. apply Hzero.
    vm_compute in Hrun. injection Hrun as Hc. subst c. discriminate.
Defined.

(** ** Currency conversion *)

(** The EUR-side variables are computed without reading the exchange rate:
    two runs that differ only in the rate agree on all of them. *)
Lemma eur_side_ignores_rate (i : Inputs) (fx : Q) (c c' : Core) :
  core_post i c -> core_post (with_EUR_to_INR_rate fx i) c' ->
  total_cbam_bill c' = total_cbam_bill c /\
  cbam_savings_total c' = cbam_savings_total c /\
  total_transition_capex_eur c' = total_transition_capex_eur c /\
  annual_finance_relief_estimate_eur c' = annual_finance_relief_estimate_eur c /\
  annual_debt_service_eur c' = annual_debt_service_eur c /\
  annual_cash_flow_gain_eur c' = annual_cash_flow_gain_eur c.
Proof.
  intros P P'.
  assert (E1 : excess_intensity c' = excess_intensity c)
    by (rewrite (post_excess_intensity _ _ P), (post_excess_intensity _ _ P');
        reflexivity).
  assert (E2 : cbam_cost_per_tonne_calc c' = cbam_cost_per_tonne_calc c)
    by (rewrite (post_cbam_cost_per_tonne_calc _ _ P),
          (post_cbam_cost_per_tonne_calc _ _ P'), E1; reflexivity).
  assert (E3 : total_cbam_bill c' = total_cbam_bill c)
    by (rewrite (post_total_cbam_bill _ _ P), (post_total_cbam_bill _ _ P'), E2;
        reflexivity).
  assert (E4 : reduced_intensity c' = reduced_intensity c)
    by (rewrite (post_reduced_intensity _ _ P), (post_reduced_intensity _ _ P');
        reflexivity).
  assert (E5 : excess_after c' = excess_after c)
    by (rewrite (post_excess_after _ _ P), (post_excess_after _ _ P'), E4;
        reflexivity).
  assert (E6 : cbam_after_per_tonne c' = cbam_after_per_tonne c)
    by (rewrite (post_cbam_after_per_tonne _ _ P),
          (post_cbam_after_per_tonne _ _ P'), E5; reflexivity).
  assert (E7 : total_cbam_after c' = total_cbam_after c)
    by (rewrite (post_total_cbam_after _ _ P), (post_total_cbam_after _ _ P'), E6;
        reflexivity).
  assert (E8 : cbam_savings_total c' = cbam_savings_total c)
    by (rewrite (post_cbam_savings_total _ _ P),
          (post_cbam_savings_total _ _ P'), E3, E7; reflexivity).
  assert (E9 : total_transition_capex_million_eur c'
               = total_transition_capex_million_eur c)
    by (rewrite (post_total_transition_capex_million_eur _ _ P),
          (post_total_transition_capex_million_eur _ _ P'); reflexivity).
  assert (E10 : total_transition_capex_eur c' = total_transition_capex_eur c)
    by (rewrite (post_total_transition_capex_eur _ _ P),
          (post_total_transition_capex_eur _ _ P'), E9; reflexivity).
  assert (E11 : annual_finance_relief_estimate_eur c'
                = annual_finance_relief_estimate_eur c)
    by (rewrite (post_annual_finance_relief_estimate_eur _ _ P),
          (post_annual_finance_relief_estimate_eur _ _ P'), E10; reflexivity).
  assert (E12 : annual_debt_service_eur c' = annual_debt_service_eur c)
    by (rewrite (post_annual_debt_service_eur _ _ P),
          (post_annual_debt_service_eur _ _ P'), E10; reflexivity).
  assert (E13 : annual_cash_flow_gain_eur c' = annual_cash_flow_gain_eur c)
    by (rewrite (post_annual_cash_flow_gain_eur _ _ P),
          (post_annual_cash_flow_gain_eur _ _ P'), E8, E11; reflexivity).
  repeat split; assumption.
Qed.

(** C10.  Every run ends with each INR figure equal to its EUR counterpart
    times [EUR_to_INR_rate] - the CBAM bill, the CBAM savings, the
    transition capex, the annual finance relief, the annual debt service and
    the annual cash-flow gain - and the EUR figures are the same whatever
    the rate is: the conversion comes after the EUR arithmetic. *)
Theorem inr_is_eur_times_rate (i : Inputs) (fx : Q) :
  exists c c',
    core_calculations i = Return c /\
    core_calculations (with_EUR_to_INR_rate fx i) = Return c' /\
    (total_cbam_bill_inr c == total_cbam_bill c * EUR_to_INR_rate i /\
     cbam_savings_total_inr c == cbam_savings_total c * EUR_to_INR_rate i /\
     total_transition_capex_inr c ==
       total_transition_capex_eur c * EUR_to_INR_rate i /\
     annual_finance_relief_estimate_inr c ==
       annual_finance_relief_estimate_eur c * EUR_to_INR_rate i /\
     annual_debt_service_inr c == annual_debt_service_eur c * EUR_to_INR_rate i /\
     annual_cash_flow_gain_inr c ==
       annual_cash_flow_gain_eur c * EUR_to_INR_rate i) /\
    (total_cbam_bill c' = total_cbam_bill c /\
     cbam_savings_total c' = cbam_savings_total c /\
     total_transition_capex_eur c' = total_transition_capex_eur c /\
     annual_finance_relief_estimate_eur c' =
       annual_finance_relief_estimate_eur c /\
     annual_debt_service_eur c' = annual_debt_service_eur c /\
     annual_cash_flow_gain_eur c' = annual_cash_flow_gain_eur c).
Proof.
  destruct (core_calculations_runs i) as (c & Hrun & P).
  destruct (core_calculations_runs (with_EUR_to_INR_rate fx i))
    as (c' & Hrun' & P').
  exists c, c'. split; [exact Hrun | split; [exact Hrun' | ]].
  split; [ | exact (eur_side_ignores_rate i fx c c' P P')].
  rewrite (post_total_cbam_bill_inr _ _ P), (post_cbam_savings_total_inr _ _ P),
    (post_total_transition_capex_inr _ _ P),
    (post_annual_finance_relief_estimate_inr _ _ P),
    (post_annual_debt_service_inr _ _ P),
    (post_annual_cash_flow_gain_inr _ _ P).
  repeat split; reflexivity.
Qed.

(** * Beyond the calculation layer's headline properties *)

(** ** Start-up *)

(** X1.  The script is halted by [st.stop()] exactly when
    [sector_defaults.csv] is not found and reading [sectors_defaults.csv]
    raises as well; one message is then shown, carrying the text of the
    second exception. *)
Theorem startup_stops_iff
    (DataFrame : Type) (read_csv : string -> Outcome DataFrame)
    (set_index : DataFrame -> Outcome DataFrame) (shown : list string) :
  startup DataFrame read_csv set_index = Stopped shown <->
  exists e e',
    read_csv "sector_defaults.csv"%string = Exception e /\
    is_FileNotFoundError e = true /\
    read_csv "sectors_defaults.csv"%string = Exception e' /\
    shown = cons (error_loading_data e') nil.
Proof.
  unfold startup, load_defaults.
  destruct (read_csv "sector_defaults.csv"%string) as [df | e].
  - split.
    + destruct (set_index df); discriminate.
    + intros (e & e' & H & _). discriminate.
  - destruct (is_FileNotFoundError e) eqn:Hfnf.
    + destruct (read_csv "sectors_defaults.csv"%string) as [df | e'].
      * split.
        -- destruct (set_index df); discriminate.
        -- intros (e1 & e2 & _ & _ & H & _). discriminate.
      * split.
        -- intro H. injection H as <-. exists e, e'. auto.
        -- intros (e1 & e2 & _ & _ & H & ->). injection H as ->. reflexivity.
    + split.
      * discriminate.
      * intros (e1 & e2 & H & Hf & _). injection H as <-. congruence.
Qed.

Lemma startup_stops_iff_witness :
  startup _ empty_folder Value =
    Stopped (cons ("Error loading data: [Errno 2] No such file or directory: 'sectors_defaults.csv'. Please ensure 'sector_defaults.csv' is in the same folder."%string) nil).
Proof.
  apply startup_stops_iff.
  eexists. eexists. repeat split; reflexivity.
Defined.

(** X3.  The script goes on with a table exactly when the first of the two
    files that can be read - [sector_defaults.csv], or [sectors_defaults.csv]
    if the former is not found - is indexed without raising; nothing is
    shown then. *)
Theorem startup_loaded_iff
    (DataFrame : Type) (read_csv : string -> Outcome DataFrame)
    (set_index : DataFrame -> Outcome DataFrame)
    (defaults : DataFrame) (shown : list string) :
  startup DataFrame read_csv set_index = Loaded defaults shown <->
  shown = nil /\
  exists df,
    set_index df = Value defaults /\
    (read_csv "sector_defaults.csv"%string = Value df \/
     exists e,
       read_csv "sector_defaults.csv"%string = Exception e /\
       is_FileNotFoundError e = true /\
       read_csv "sectors_defaults.csv"%string = Value df).
Proof.
  unfold startup, load_defaults.
  destruct (read_csv "sector_defaults.csv"%string) as [df | e].
  - split.
    + destruct (set_index df) as [d | e'] eqn:Hidx; [ | discriminate].
      intro H. injection H as <- <-.
      split; [reflexivity | ]. exists df. auto.
    + intros (-> & df' & Hidx & [H | (e & H & _)]); [ | discriminate].
      injection H as <-. rewrite Hidx. reflexivity.
  - destruct (is_FileNotFoundError e) eqn:Hfnf.
    + destruct (read_csv "sectors_defaults.csv"%string) as [df | e'].
      * split.
        -- destruct (set_index df) as [d | e'] eqn:Hidx; [ | discriminate].
           intro H. injection H as <- <-.
           split; [reflexivity | ]. exists df. split; [exact Hidx | ].
           right. exists e. auto.
        -- intros (-> & df' & Hidx & [H | (e1 & _ & _ & H)]); [discriminate | ].
           injection H as <-. rewrite Hidx. reflexivity.
      * split; [discriminate | ].
        intros (_ & df' & _ & [H | (e1 & _ & _ & H)]); discriminate.
    + split; [discriminate | ].
      intros (_ & df' & _ & [H | (e1 & H & Hf & _)]); [discriminate | ].
      injection H as <-. congruence.
Qed.

Lemma startup_loaded_iff_witness :
  startup _ plural_only_folder Value =
    Loaded (cons ("steel"%string, steel_row) nil) nil.
Proof.
  apply startup_loaded_iff.
  split; [reflexivity | ].
  eexists. split; [reflexivity | ].
  right. eexists. repeat split; reflexivity.
Defined.

(** ** What the views show *)

Lemma py_ge_true (a b : Q) : py_ge a b = true <-> b <= a.
Proof. apply Qle_bool_iff. Qed.

Lemma py_ge_false (a b : Q) : py_ge a b = false <-> a < b.
Proof. apply (py_le_false b a). Qed.

(** The two views, in terms of the classes above. *)
Lemma render_banker (c : Core) :
  render Banker_Financial_Institution c =
    Return (BankerView (readiness_subtext Banker_Financial_Institution c)
                       (coverage_class c)).
Proof. reflexivity. Qed.

Lemma render_exporter (c : Core) :
  exists p,
    render Exporter_Manufacturer c =
      Return (ExporterView (readiness_subtext Exporter_Manufacturer c) p).
Proof.
  destruct (render_exporter_runs c) as (s & p & H & _).
  exists p. rewrite H. unfold render in H.
  destruct (if py_gt (annual_cash_flow_gain_eur c) 0
            then py_truediv (total_transition_capex_eur c)
                   (annual_cash_flow_gain_eur c)
            else Return 0) as [q | e]; [ | discriminate].
  cbn [bind] in H. injection H as <- _. reflexivity.
Qed.

Lemma Qdiv_ge_1 (a b : Q) : 0 < b -> (1 <= a / b <-> b <= a).
Proof.
  intro Hb. split; intro H.
  - apply (Qmult_le_compat_r _ _ b) in H; [ | lra].
    rewrite Qmult_1_l in H.
    unfold Qdiv in H. rewrite <- Qmult_assoc, (Qmult_comm (/ b)) in H.
    rewrite Qmult_inv_r, Qmult_1_r in H; [exact H | lra].
  - apply Qle_shift_div_l; [exact Hb | lra].
Qed.

Lemma moderate_inputs_nonneg (i : Inputs) : moderate_inputs i -> nonneg_inputs i.
Proof.
  intro M. destruct (moderate_widgets _ M).
  constructor;
    try (apply (moderate_india_intensity _ M));
    try (apply (moderate_eu_benchmark _ M));
    try (apply (moderate_ets_price _ M));
    try (apply (moderate_export_price _ M));
    try (apply (moderate_pre_margin _ M));
    try (apply (moderate_user_intensity _ M));
    try (apply (moderate_export_volume _ M));
    try (apply (moderate_selling_price _ M));
    try (apply (moderate_capex _ M));
    try lia; lra.
Qed.

Lemma steel_scenario_moderate : moderate_inputs steel_scenario.
Proof.
  constructor; try (split; discriminate).
  constructor; vm_compute; try split; discriminate.
Qed.

Lemma no_reduction_scenario_moderate : moderate_inputs no_reduction_scenario.
Proof.
  constructor; try (split; discriminate).
  constructor; vm_compute; try split; discriminate.
Qed.

(** X4.  In the banker view the coverage figure is coloured positive
    exactly when the annual cash-flow gain covers the annual debt service,
    provided there is debt service; with no debt service (the sentinel
    branch) it is always coloured positive.  The inputs are moderate, so
    that neither figure overflows. *)
Theorem coverage_class_meaning (i : Inputs) :
  moderate_inputs i ->
  exists c text,
    app Banker_Financial_Institution i
      = Return (c, BankerView text (coverage_class c)) /\
    (0 < annual_debt_service_eur c ->
     (coverage_class c = "kpi-delta-pos"%string <->
      annual_debt_service_eur c <= annual_cash_flow_gain_eur c)) /\
    (annual_debt_service_eur c <= 0 ->
     coverage_class c = "kpi-delta-pos"%string).
Proof.
  intros _.
  destruct (core_calculations_runs i) as (c & Hrun & P).
  exists c, (readiness_subtext Banker_Financial_Institution c).
  split; [unfold app; rewrite Hrun; reflexivity | ].
  unfold coverage_class. rewrite (post_coverage_ratio _ _ P).
  destruct (py_gt (annual_debt_service_eur c) 0) eqn:Hds.
  - apply py_gt_true in Hds. split; [intros _ | intro; lra].
    destruct (py_ge (annual_cash_flow_gain_eur c / annual_debt_service_eur c) 1)
      eqn:Hge.
    + apply py_ge_true in Hge. apply (Qdiv_ge_1 _ _ Hds) in Hge. tauto.
    + apply py_ge_false in Hge. split; [discriminate | ].
      intro H. apply (Qdiv_ge_1 _ _ Hds) in H. lra.
  - apply py_gt_false in Hds. split; [intro; lra | intros _; reflexivity].
Qed.

Lemma coverage_class_meaning_witness :
  (exists c text,
     app Banker_Financial_Institution steel_scenario
       = Return (c, BankerView text (coverage_class c)) /\
     coverage_class c <> "kpi-delta-pos"%string) /\
  (exists c text,
     app Banker_Financial_Institution no_reduction_scenario
       = Return (c, BankerView text (coverage_class c)) /\
     coverage_class c = "kpi-delta-pos"%string).
Proof.
  split.
  - destruct (coverage_class_meaning steel_scenario steel_scenario_moderate)
      as (c & text & Happ & Hpos & _).
    exists c, text. split; [exact Happ | ].
    vm_compute in Happ. injection Happ as Hc _. subst c.
    intro Hcls. apply Hpos in Hcls; [ | reflexivity].
    vm_compute in Hcls. apply Hcls. reflexivity.
  - destruct (coverage_class_meaning no_reduction_scenario
                no_reduction_scenario_moderate)
      as (c & text & Happ & _ & Hzero).
    exists c, text. split; [exact Happ | ]. apply Hzero.
    vm_compute in Happ. injection Happ as Hc _. subst c. discriminate.
Defined.

Lemma readiness_zero_iff (c : Core) (i : Inputs) :
  core_post i c -> (readiness_score c == 0 <-> 100 <= score_raw c).
Proof.
  intro P. rewrite (post_readiness_score _ _ P).
  destruct (py_max_cases (py_min (100 - score_raw c) 100) 0) as [[H ->] | [H ->]];
    destruct (py_min_cases (100 - score_raw c) 100) as [[H' E] | [H' E]];
    rewrite E in H; try rewrite E; split; intro; lra.
Qed.

(** X6.  In either view the helper text under the readiness score is the
    red "High Risk: CBAM cost exceeds margin" exactly when the score is 0,
    that is when [score_raw] reaches 100. *)
Theorem high_risk_shown_iff (persona : Persona) (i : Inputs) :
  exists c v,
    app persona i = Return (c, v) /\
    shown_subtext v = readiness_subtext persona c /\
    (shown_subtext v = high_risk_subtext <-> readiness_score c == 0) /\
    (shown_subtext v = high_risk_subtext <->
     100 <= cbam_hit_pct_of_price c * 2
            + (pre_margin_pct i - post_margin_pct c) * 5).
Proof.
  destruct (core_calculations_runs i) as (c & Hrun & P).
  assert (Hv : exists v, render persona c = Return v /\
                 shown_subtext v = readiness_subtext persona c).
  { destruct persona.
    - destruct (render_exporter c) as (p & Hp). eexists. split; [exact Hp | ].
      reflexivity.
    - eexists. split; [apply render_banker | reflexivity]. }
  destruct Hv as (v & Hrender & Htext).
  exists c, v.
  split; [unfold app; rewrite Hrun; cbn [bind]; rewrite Hrender; reflexivity | ].
  split; [exact Htext | ].
  assert (Hiff : shown_subtext v = high_risk_subtext <-> readiness_score c == 0).
  { rewrite Htext. unfold readiness_subtext.
    destruct (Qeq_bool (readiness_score c) 0) eqn:E.
    - apply Qeq_bool_iff in E. tauto.
    - split; [destruct persona; discriminate | ].
      intro H. apply Qeq_bool_iff in H. congruence. }
  split; [exact Hiff | ].
  rewrite Hiff, (readiness_zero_iff c i P), (post_score_raw _ _ P). reflexivity.
Qed.

Lemma high_risk_shown_iff_witness :
  exists c v,
    app Exporter_Manufacturer high_hit_scenario = Return (c, v) /\
    shown_subtext v = high_risk_subtext.
Proof.
  destruct (high_risk_shown_iff Exporter_Manufacturer high_hit_scenario)
    as (c & v & Happ & _ & Hzero & _).
  exists c, v. split; [exact Happ | ].
  apply Hzero.
  vm_compute in Happ. injection Happ as Hc _. subst c. reflexivity.
Defined.

(** ** Edge cases of the calculation *)

Lemma py_max_zero (x : Q) : x <= 0 -> py_max x 0 == 0.
Proof. intro H. destruct (py_max_cases x 0) as [[? ->] | [? ->]]; lra. Qed.

Lemma py_max_id (x : Q) : 0 <= x -> py_max x 0 == x.
Proof. intro H. destruct (py_max_cases x 0) as [[? ->] | [? ->]]; lra. Qed.

Lemma py_max_compat (x y : Q) : x == y -> py_max x 0 == py_max y 0.
Proof.
  intro H.
  destruct (py_max_cases x 0) as [[? ->] | [? ->]];
    destruct (py_max_cases y 0) as [[? ->] | [? ->]]; lra.
Qed.

Lemma tier_of_zero (h : Q) : h == 0 -> competitiveness_tier h = GREEN.
Proof.
  intro H. unfold competitiveness_tier.
  destruct (py_le h 5) eqn:E; [reflexivity | ].
  apply py_le_false in E. lra.
Qed.

(** X8.  With moderate inputs and the reduction slider at 0 the plan
    changes nothing and costs nothing: the intensity and the CBAM bill after
    the plan equal those before, savings, capex, finance relief, debt
    service and cash-flow gain are all 0, the coverage ratio is the sentinel
    999 and the payback period of the exporter view is 0. *)
Theorem zero_reduction_plan (i : Inputs) :
  moderate_inputs i ->
  reduction_pct i = 0%Z ->
  exists c text payback_period,
    app Exporter_Manufacturer i
      = Return (c, ExporterView text payback_period) /\
    reduced_intensity c == user_intensity i /\
    total_cbam_after c == total_cbam_bill c /\
    cbam_savings_total c == 0 /\
    total_transition_capex_eur c == 0 /\
    annual_finance_relief_estimate_eur c == 0 /\
    annual_debt_service_eur c == 0 /\
    annual_cash_flow_gain_eur c == 0 /\
    coverage_ratio c = 999 /\
    payback_period = 0.
Proof.
  intros _ Hr.
  destruct (core_calculations_runs i) as (c & Hrun & P).
  destruct (render_exporter_runs c) as (text & p & Hrender & Hp).
  exists c, text, p.
  split; [unfold app; rewrite Hrun; cbn [bind]; rewrite Hrender; reflexivity | ].
  assert (Hred : reduced_intensity c == user_intensity i).
  { rewrite (post_reduced_intensity _ _ P), Hr.
    setoid_replace (inject_Z 0 / 100) with 0 by reflexivity. ring. }
  assert (Hafter : total_cbam_after c == total_cbam_bill c).
  { rewrite (post_total_cbam_after _ _ P), (post_cbam_after_per_tonne _ _ P),
      (post_excess_after _ _ P), (post_total_cbam_bill _ _ P),
      (post_cbam_cost_per_tonne_calc _ _ P), (post_excess_intensity _ _ P).
    rewrite (py_max_compat (reduced_intensity c - eu_benchmark i)
               (user_intensity i - eu_benchmark i)); [reflexivity | ].
    rewrite Hred. reflexivity. }
  assert (Hsav : cbam_savings_total c == 0).
  { rewrite (post_cbam_savings_total _ _ P). apply py_max_zero. lra. }
  assert (Hcapex : total_transition_capex_eur c == 0).
  { rewrite (post_total_transition_capex_eur _ _ P),
      (post_total_transition_capex_million_eur _ _ P), Hr. ring. }
  assert (Hrelief : annual_finance_relief_estimate_eur c == 0).
  { rewrite (post_annual_finance_relief_estimate_eur _ _ P), Hcapex. ring. }
  assert (Hds : annual_debt_service_eur c == 0).
  { rewrite (post_annual_debt_service_eur _ _ P).
    destruct (deal_tenor_years i >? 0)%Z; [ | reflexivity].
    rewrite Hcapex. unfold Qdiv. ring. }
  assert (Hgain : annual_cash_flow_gain_eur c == 0).
  { rewrite (post_annual_cash_flow_gain_eur _ _ P), Hsav, Hrelief. ring. }
  repeat (split; [assumption | ]).
  split.
  - rewrite (post_coverage_ratio _ _ P).
    destruct (py_gt (annual_debt_service_eur c) 0) eqn:E; [ | reflexivity].
    apply py_gt_true in E. lra.
  - rewrite Hp.
    destruct (py_gt (annual_cash_flow_gain_eur c) 0) eqn:E; [ | reflexivity].
    apply py_gt_true in E. lra.
Qed.

Lemma zero_reduction_plan_witness :
  exists c text payback_period,
    app Exporter_Manufacturer no_reduction_scenario
      = Return (c, ExporterView text payback_period) /\
    total_cbam_after c == total_cbam_bill c /\
    coverage_ratio c = 999 /\ payback_period = 0.
Proof.
  destruct (zero_reduction_plan no_reduction_scenario
              no_reduction_scenario_moderate eq_refl)
    as (c & text & p & Happ & _ & Hafter & _ & _ & _ & _ & _ & Hcov & Hp).
  exists c, text, p. repeat split; assumption.
Defined.

(** X9.  A plant at or below the EU benchmark pays nothing: excess, cost
    per tonne, bill and hit are 0 and the rating is GREEN; if the pre-CBAM
    margin is not negative the margin is untouched and the readiness score
    is 100. *)
Theorem compliant_plant (i : Inputs) :
  user_intensity i <= eu_benchmark i ->
  exists c, core_calculations i = Return c /\
    excess_intensity c == 0 /\
    cbam_cost_per_tonne_calc c == 0 /\
    total_cbam_bill c == 0 /\
    cbam_hit_pct_of_price c == 0 /\
    competitiveness c = GREEN /\
    (0 <= pre_margin_pct i ->
     post_margin_pct c == pre_margin_pct i /\ margin_delta c == 0 /\
     readiness_score c == 100).
Proof.
  intro Hu.
  destruct (core_calculations_runs i) as (c & Hrun & P).
  exists c. split; [exact Hrun | ].
  assert (Hex : excess_intensity c == 0)
    by (rewrite (post_excess_intensity _ _ P); apply py_max_zero; lra).
  assert (Hcost : cbam_cost_per_tonne_calc c == 0)
    by (rewrite (post_cbam_cost_per_tonne_calc _ _ P), Hex; ring).
  assert (Hbill : total_cbam_bill c == 0)
    by (rewrite (post_total_cbam_bill _ _ P), Hcost; ring).
  assert (Hhit : cbam_hit_pct_of_price c == 0).
  { rewrite (post_cbam_hit_pct_of_price _ _ P).
    destruct (py_gt (selling_price i) 0); [ | reflexivity].
    rewrite Hcost. unfold Qdiv. ring. }
  repeat (split; [assumption | ]).
  split; [rewrite (post_competitiveness _ _ P); apply tier_of_zero, Hhit | ].
  intro Hpre.
  assert (Hpost : post_margin_pct c == pre_margin_pct i).
  { rewrite (post_post_margin_pct _ _ P), py_max_id; lra. }
  split; [exact Hpost | ].
  split; [rewrite (post_margin_delta _ _ P); lra | ].
  rewrite (post_readiness_score _ _ P), py_clamp, (post_score_raw _ _ P).
  unfold clamp.
  destruct (Qlt_le_dec _ 0); [lra | ].
  destruct (Qlt_le_dec 100 _); lra.
Qed.

Lemma compliant_plant_witness :
  exists c, core_calculations compliant_scenario = Return c /\
    total_cbam_bill c == 0 /\ competitiveness c = GREEN /\
    readiness_score c == 100.
Proof.
  destruct (compliant_plant compliant_scenario)
    as (c & Hrun & _ & _ & Hbill & _ & Htier & Hmargin); [discriminate | ].
  exists c. repeat split; try assumption.
  apply Hmargin. discriminate.
Defined.

(** ** Savings *)

(** X10.  With moderate inputs the bill after the plan lies between 0 and
    the bill before, which stays below 10^91, so the floor in
    [cbam_savings_total] never binds: the savings are exactly the difference
    of the two bills, and never more than the bill. *)
Theorem savings_are_the_bill_difference (i : Inputs) :
  moderate_inputs i ->
  exists c, core_calculations i = Return c /\
    0 <= total_cbam_after c /\ total_cbam_after c <= total_cbam_bill c /\
    total_cbam_bill c <= bill_bound /\
    cbam_savings_total c == total_cbam_bill c - total_cbam_after c /\
    cbam_savings_total c <= total_cbam_bill c.
Proof.
  intro M.
  destruct (moderate_user_intensity _ M) as [Hu Hu'].
  destruct (moderate_ets_price _ M) as [He He'].
  destruct (moderate_export_volume _ M) as [Hv Hv'].
  destruct (moderate_eu_benchmark _ M) as [Hb _].
  destruct (range_reduction_pct _ (moderate_widgets _ M)) as [Hr _].
  destruct (core_calculations_runs i) as (c & Hrun & P).
  exists c. split; [exact Hrun | ].
  assert (Hp : 0 <= inject_Z (reduction_pct i) / 100).
  { apply Qle_shift_div_l; [reflexivity | ].
    rewrite Qmult_0_l, <- (Zle_Qle 0). exact Hr. }
  pose proof (post_reduced_intensity _ _ P) as ER.
  remember (inject_Z (reduction_pct i) / 100) as p eqn:Ep.
  assert (Hup : 0 <= user_intensity i * p) by (apply Qmult_le_0_compat; assumption).
  assert (Hred : reduced_intensity c == user_intensity i - user_intensity i * p)
    by (rewrite ER; ring).
  pose proof (post_excess_intensity _ _ P) as EA.
  pose proof (post_excess_after _ _ P) as EB.
  assert (HB : 0 <= excess_after c) by (rewrite EB; apply py_max_lower).
  assert (Hdiff : excess_after c <= excess_intensity c /\
                  excess_intensity c <= user_intensity i).
  { rewrite EA, EB.
    destruct (py_max_cases (user_intensity i - eu_benchmark i) 0)
      as [[? ->] | [? ->]];
      destruct (py_max_cases (reduced_intensity c - eu_benchmark i) 0)
        as [[? ->] | [? ->]];
      (split; lra). }
  destruct Hdiff as (HBA & HAu).
  assert (HA : 0 <= excess_intensity c) by lra.
  assert (Hbill : total_cbam_bill c
                  == excess_intensity c * ets_price i * export_volume_tonnes i)
    by (rewrite (post_total_cbam_bill _ _ P),
          (post_cbam_cost_per_tonne_calc _ _ P); reflexivity).
  assert (Hafter : total_cbam_after c
                   == excess_after c * ets_price i * export_volume_tonnes i)
    by (rewrite (post_total_cbam_after _ _ P),
          (post_cbam_after_per_tonne _ _ P); reflexivity).
  assert (H0 : 0 <= total_cbam_after c).
  { rewrite Hafter. repeat apply Qmult_le_0_compat; assumption. }
  assert (Hle : total_cbam_after c <= total_cbam_bill c).
  { rewrite Hafter, Hbill.
    repeat (apply Qmult_le_compat_r; [ | assumption]). exact HBA. }
  assert (Hbound : total_cbam_bill c <= bill_bound).
  { rewrite Hbill.
    apply Qle_trans with (moderate_bound * moderate_bound * moderate_bound);
      [ | discriminate].
    apply Qmult_le_compat_nonneg; [ | split; assumption].
    split; [apply Qmult_le_0_compat; assumption | ].
    apply Qmult_le_compat_nonneg; split; try assumption.
    apply Qle_trans with (user_intensity i); assumption. }
  assert (Hsav : cbam_savings_total c == total_cbam_bill c - total_cbam_after c).
  { rewrite (post_cbam_savings_total _ _ P). apply py_max_id. lra. }
  repeat (split; [assumption | ]).
  rewrite Hsav. lra.
Qed.

Lemma savings_are_the_bill_difference_witness :
  moderate_inputs steel_scenario /\
  exists c, core_calculations steel_scenario = Return c /\
    cbam_savings_total c == total_cbam_bill c - total_cbam_after c /\
    cbam_savings_total c == 240000.
Proof.
  split; [exact steel_scenario_moderate | ].
  destruct (savings_are_the_bill_difference steel_scenario
              steel_scenario_moderate)
    as (c & Hrun & _ & _ & _ & Hsav & _).
  exists c. split; [exact Hrun | ]. split; [exact Hsav | ].
  vm_compute in Hrun. injection Hrun as Hc. subst c. reflexivity.
Defined.

(** ** Banker metrics *)

(** X12.  With moderate inputs none of the financing figures is negative:
    capex, finance relief, debt service, cash-flow gain, coverage ratio and
    payback period are all at least 0. *)
Theorem banker_figures_nonneg (i : Inputs) :
  moderate_inputs i ->
  exists c text payback_period,
    app Exporter_Manufacturer i
      = Return (c, ExporterView text payback_period) /\
    0 <= total_transition_capex_eur c /\
    0 <= annual_finance_relief_estimate_eur c /\
    0 <= annual_debt_service_eur c /\
    0 <= annual_cash_flow_gain_eur c /\
    0 <= coverage_ratio c /\
    0 <= payback_period.
Proof.
  intro M. pose proof (moderate_inputs_nonneg i M) as N.
  destruct (core_calculations_runs i) as (c & Hrun & P).
  destruct (render_exporter_runs c) as (text & p & Hrender & Hp).
  exists c, text, p.
  split; [unfold app; rewrite Hrun; cbn [bind]; rewrite Hrender; reflexivity | ].
  assert (Hr : 0 <= inject_Z (reduction_pct i))
    by (rewrite <- (Zle_Qle 0); apply (nonneg_reduction_pct _ N)).
  assert (Hb : 0 <= inject_Z (slb_rate_discount_bps i))
    by (rewrite <- (Zle_Qle 0); apply (nonneg_bps _ N)).
  assert (Hcapex : 0 <= total_transition_capex_eur c).
  { rewrite (post_total_transition_capex_eur _ _ P),
      (post_total_transition_capex_million_eur _ _ P).
    apply Qmult_le_0_compat; [ | discriminate].
    apply Qmult_le_0_compat; [apply (nonneg_capex _ N) | exact Hr]. }
  assert (Hrelief : 0 <= annual_finance_relief_estimate_eur c).
  { rewrite (post_annual_finance_relief_estimate_eur _ _ P).
    apply Qmult_le_0_compat; [ | exact Hcapex].
    apply Qle_shift_div_l; [reflexivity | ]. rewrite Qmult_0_l. exact Hb. }
  assert (Hds : 0 <= annual_debt_service_eur c).
  { rewrite (post_annual_debt_service_eur _ _ P).
    destruct (deal_tenor_years i >? 0)%Z eqn:Hten; [ | lra].
    apply Z.gtb_lt in Hten. rewrite (Zlt_Qlt 0) in Hten.
    apply Qle_shift_div_l; [exact Hten | ]. rewrite Qmult_0_l. exact Hcapex. }
  assert (Hgain : 0 <= annual_cash_flow_gain_eur c).
  { rewrite (post_annual_cash_flow_gain_eur _ _ P),
      (post_cbam_savings_total _ _ P).
    pose proof (py_max_lower (total_cbam_bill c - total_cbam_after c) 0). lra. }
  repeat (split; [assumption | ]).
  split.
  - rewrite (post_coverage_ratio _ _ P).
    destruct (py_gt (annual_debt_service_eur c) 0) eqn:E; [ | discriminate].
    apply py_gt_true in E.
    apply Qle_shift_div_l; [exact E | ]. rewrite Qmult_0_l. exact Hgain.
  - rewrite Hp.
    destruct (py_gt (annual_cash_flow_gain_eur c) 0) eqn:E; [ | lra].
    apply py_gt_true in E.
    apply Qle_shift_div_l; [exact E | ]. rewrite Qmult_0_l. exact Hcapex.
Qed.

Lemma banker_figures_nonneg_witness :
  moderate_inputs steel_scenario /\
  exists c text payback_period,
    app Exporter_Manufacturer steel_scenario
      = Return (c, ExporterView text payback_period) /\
    0 <= coverage_ratio c /\ 0 <= payback_period.
Proof.
  split; [exact steel_scenario_moderate | ].
  destruct (banker_figures_nonneg steel_scenario steel_scenario_moderate)
    as (c & text & p & Happ & _ & _ & _ & _ & Hcov & Hp).
  exists c, text, p. repeat split; assumption.
Defined.

(** ** Sensitivity to the inputs *)

Lemma competitiveness_tier_mono (h1 h2 : Q) :
  h1 <= h2 ->
  (tier_rank (competitiveness_tier h1) <= tier_rank (competitiveness_tier h2))%Z.
Proof.
  intro H. unfold competitiveness_tier.
  destruct (py_le h1 5) eqn:A1; destruct (py_le h1 15) eqn:B1;
    destruct (py_le h2 5) eqn:A2; destruct (py_le h2 15) eqn:B2;
    cbn; try lia;
    try apply py_le_true in A1; try apply py_le_false in A1;
    try apply py_le_true in B1; try apply py_le_false in B1;
    try apply py_le_true in A2; try apply py_le_false in A2;
    try apply py_le_true in B2; try apply py_le_false in B2;
    exfalso; lra.
Qed.

(** X13.  With a non-negative ETS price, a dirtier plant never looks
    better: raising [user_intensity] and nothing else never lowers the CBAM
    hit, never moves the rating to a milder tier, never raises the post-CBAM
    margin and never raises the readiness score. *)
Theorem dirtier_plant_never_looks_better (i : Inputs) (u1 u2 : Q) :
  0 <= ets_price i -> u1 <= u2 ->
  exists c1 c2,
    core_calculations (with_user_intensity u1 i) = Return c1 /\
    core_calculations (with_user_intensity u2 i) = Return c2 /\
    cbam_hit_pct_of_price c1 <= cbam_hit_pct_of_price c2 /\
    (tier_rank (competitiveness c1) <= tier_rank (competitiveness c2))%Z /\
    post_margin_pct c2 <= post_margin_pct c1 /\
    readiness_score c2 <= readiness_score c1.
Proof.
  intros He Hu.
  destruct (core_calculations_runs (with_user_intensity u1 i)) as (c1 & Hrun1 & P1).
  destruct (core_calculations_runs (with_user_intensity u2 i)) as (c2 & Hrun2 & P2).
  exists c1, c2. split; [exact Hrun1 | split; [exact Hrun2 | ]].
  assert (Hcost : cbam_cost_per_tonne_calc c1 <= cbam_cost_per_tonne_calc c2).
  { rewrite (post_cbam_cost_per_tonne_calc _ _ P1),
      (post_cbam_cost_per_tonne_calc _ _ P2),
      (post_excess_intensity _ _ P1), (post_excess_intensity _ _ P2).
    apply Qmult_le_compat_r; [ | exact He].
    apply py_max_mono_l. cbn. apply Qplus_le_l. exact Hu. }
  assert (Hhit : cbam_hit_pct_of_price c1 <= cbam_hit_pct_of_price c2).
  { rewrite (post_cbam_hit_pct_of_price _ _ P1),
      (post_cbam_hit_pct_of_price _ _ P2).
    cbn [selling_price with_user_intensity].
    destruct (py_gt (selling_price i) 0) eqn:Hsp; [ | lra].
    apply py_gt_true in Hsp.
    apply Qmult_le_compat_r; [ | discriminate].
    apply Qmult_le_compat_r; [exact Hcost | ].
    apply Qlt_le_weak, Qinv_lt_0_compat, Hsp. }
  split; [exact Hhit | ].
  split.
  { rewrite (post_competitiveness _ _ P1), (post_competitiveness _ _ P2).
    apply competitiveness_tier_mono, Hhit. }
  pose proof (post_post_margin_pct _ _ P1) as E1.
  pose proof (post_post_margin_pct _ _ P2) as E2.
  change (pre_margin_pct (with_user_intensity u1 i)) with (pre_margin_pct i) in E1.
  change (pre_margin_pct (with_user_intensity u2 i)) with (pre_margin_pct i) in E2.
  assert (Hpost : post_margin_pct c2 <= post_margin_pct c1).
  { rewrite E1, E2. apply py_max_mono_l. lra. }
  split; [exact Hpost | ].
  rewrite (post_readiness_score _ _ P1), (post_readiness_score _ _ P2),
    (post_score_raw _ _ P1), (post_score_raw _ _ P2).
  change (pre_margin_pct (with_user_intensity u1 i)) with (pre_margin_pct i).
  change (pre_margin_pct (with_user_intensity u2 i)) with (pre_margin_pct i).
  set (x2 := 100 - _). set (x1 := 100 - _).
  assert (Hx : x2 <= x1) by (unfold x1, x2; lra).
  destruct (py_max_cases (py_min x1 100) 0) as [[H1 ->] | [H1 ->]];
    destruct (py_max_cases (py_min x2 100) 0) as [[H2 ->] | [H2 ->]];
    destruct (py_min_cases x1 100) as [[H3 E3] | [H3 E3]];
    destruct (py_min_cases x2 100) as [[H4 E4] | [H4 E4]];
    rewrite ?E3, ?E4 in *; lra.
Qed.

Lemma dirtier_plant_never_looks_better_witness :
  exists c1 c2,
    core_calculations (with_user_intensity 2 steel_scenario) = Return c1 /\
    core_calculations (with_user_intensity 3 steel_scenario) = Return c2 /\
    cbam_hit_pct_of_price c1 <= cbam_hit_pct_of_price c2 /\
    (tier_rank (competitiveness c1) <= tier_rank (competitiveness c2))%Z /\
    post_margin_pct c2 <= post_margin_pct c1 /\
    readiness_score c2 <= readiness_score c1.
Proof.
  apply (dirtier_plant_never_looks_better steel_scenario 2 3); discriminate.
Defined.

(** X14.  The rating and the readiness score look at the plant as it is
    today: the per-tonne cost, the CBAM hit, the post-CBAM margin, the
    competitiveness tier and the readiness score do not change when the
    export volume, the reduction target, the capex, the incentive, the tenor
    or the exchange rate change. *)
Theorem rating_ignores_plan_and_finance
    (i : Inputs) (volume : Q) (reduction : Z) (capex : Q) (bps tenor : Z)
    (fx : Q) :
  exists c c',
    core_calculations i = Return c /\
    core_calculations
      (with_plan_and_finance volume reduction capex bps tenor fx i)
      = Return c' /\
    cbam_cost_per_tonne_calc c' = cbam_cost_per_tonne_calc c /\
    cbam_hit_pct_of_price c' = cbam_hit_pct_of_price c /\
    post_margin_pct c' = post_margin_pct c /\
    margin_delta c' = margin_delta c /\
    competitiveness c' = competitiveness c /\
    readiness_score c' = readiness_score c.
Proof.
  destruct (core_calculations_runs i) as (c & Hrun & P).
  destruct (core_calculations_runs
              (with_plan_and_finance volume reduction capex bps tenor fx i))
    as (c' & Hrun' & P').
  exists c, c'. split; [exact Hrun | split; [exact Hrun' | ]].
  assert (E1 : excess_intensity c' = excess_intensity c)
    by (rewrite (post_excess_intensity _ _ P), (post_excess_intensity _ _ P');
        reflexivity).
  assert (E2 : cbam_cost_per_tonne_calc c' = cbam_cost_per_tonne_calc c)
    by (rewrite (post_cbam_cost_per_tonne_calc _ _ P),
          (post_cbam_cost_per_tonne_calc _ _ P'), E1; reflexivity).
  assert (E3 : cbam_hit_pct_of_price c' = cbam_hit_pct_of_price c)
    by (rewrite (post_cbam_hit_pct_of_price _ _ P),
          (post_cbam_hit_pct_of_price _ _ P'), E2; reflexivity).
  assert (E4 : post_margin_pct c' = post_margin_pct c)
    by (rewrite (post_post_margin_pct _ _ P), (post_post_margin_pct _ _ P'), E3;
        reflexivity).
  assert (E5 : margin_delta c' = margin_delta c)
    by (rewrite (post_margin_delta _ _ P), (post_margin_delta _ _ P'), E4;
        reflexivity).
  assert (E6 : competitiveness c' = competitiveness c)
    by (rewrite (post_competitiveness _ _ P), (post_competitiveness _ _ P'), E3;
        reflexivity).
  assert (E7 : score_raw c' = score_raw c)
    by (rewrite (post_score_raw _ _ P), (post_score_raw _ _ P'), E3, E4;
        reflexivity).
  assert (E8 : readiness_score c' = readiness_score c)
    by (rewrite (post_readiness_score _ _ P), (post_readiness_score _ _ P'), E7;
        reflexivity).
  repeat split; assumption.
Qed.

(** ** What the widget bounds guarantee *)

Lemma Qdiv_mult_cancel (a b : Q) : 0 < b -> a / b * b == a.
Proof. intro H. field. lra. Qed.

(** X16.  Inside the widget bounds the coverage ratio falls back to the
    sentinel 999 exactly when the plan needs no capital: the debt service is
    0 if and only if the reduction target is 0 or the capex per percent is
    0. *)
Theorem sentinel_iff_no_capex (i : Inputs) :
  widget_ranges i ->
  exists c, core_calculations i = Return c /\
    (annual_debt_service_eur c == 0 <->
     reduction_pct i = 0%Z \/ capex_per_pct_reduction_million_eur i == 0) /\
    (reduction_pct i = 0%Z \/ capex_per_pct_reduction_million_eur i == 0 ->
     coverage_ratio c = 999).
Proof.
  intro W.
  destruct (core_calculations_runs i) as (c & Hrun & P).
  exists c. split; [exact Hrun | ].
  destruct (range_tenor _ W) as [Ht1 _].
  assert (Ht : 0 < inject_Z (deal_tenor_years i))
    by (rewrite <- (Zlt_Qlt 0); lia).
  assert (Hten : (deal_tenor_years i >? 0)%Z = true)
    by (apply Z.gtb_lt; lia).
  pose proof (post_annual_debt_service_eur _ _ P) as Eds.
  rewrite Hten in Eds.
  assert (Hcapex : total_transition_capex_eur c ==
            capex_per_pct_reduction_million_eur i * inject_Z (reduction_pct i)
            * 1000000)
    by (rewrite (post_total_transition_capex_eur _ _ P),
          (post_total_transition_capex_million_eur _ _ P); reflexivity).
  assert (Hiff : annual_debt_service_eur c == 0 <->
            reduction_pct i = 0%Z \/ capex_per_pct_reduction_million_eur i == 0).
  { split.
    - intro H0.
      assert (Hk : total_transition_capex_eur c == 0).
      { rewrite <- (Qdiv_mult_cancel (total_transition_capex_eur c) _ Ht),
          <- Eds, H0. ring. }
      rewrite Hcapex in Hk.
      apply Qmult_integral in Hk. destruct Hk as [Hk | Hk]; [ | discriminate Hk].
      apply Qmult_integral in Hk. destruct Hk as [Hk | Hk]; [right; exact Hk | ].
      left. apply (inject_Z_injective (reduction_pct i) 0). exact Hk.
    - intros [Hr | Hk]; rewrite Eds, Hcapex.
      + rewrite Hr. unfold Qdiv. ring.
      + rewrite Hk. unfold Qdiv. ring. }
  split; [exact Hiff | ].
  intro H. apply Hiff in H.
  rewrite (post_coverage_ratio _ _ P).
  destruct (py_gt (annual_debt_service_eur c) 0) eqn:E; [ | reflexivity].
  apply py_gt_true in E. lra.
Qed.

Lemma sentinel_iff_no_capex_witness :
  exists c, core_calculations no_reduction_scenario = Return c /\
    coverage_ratio c = 999.
Proof.
  assert (W : widget_ranges no_reduction_scenario)
    by (constructor; vm_compute; try split; discriminate).
  destruct (sentinel_iff_no_capex no_reduction_scenario W)
    as (c & Hrun & _ & Hcov).
  exists c. split; [exact Hrun | ]. apply Hcov. left. reflexivity.
Defined.

